(** * Race-telemetry streaming engine: buffer, decimation, reconnect and viewport

    A shallow embedding of the telemetry hook ([useTelemetry.ts]) and of the
    two dashboard variants (the file with the clamped pan and the guarded
    wheel handler is called the "clamped dashboard" below, the other one the
    "plain dashboard").

    Number model.  A JavaScript [number] that is used as a count or an array
    index is an integer [Z]; a [number] that carries a measurement (time,
    channel value, domain bound) is an exact rational [Q].  Rounding, NaN and
    the infinities of IEEE doubles are therefore outside the model: [isNaN]
    is constantly false on a [Q], a division by zero has no faithful value
    (the statements below exclude zero divisors by hypothesis), and
    equalities between computed measurements are stated with [==]
    (equality of rationals). *)

From Stdlib Require Import List ZArith QArith Qround Qabs Qminmax Lia Lqa Bool.
From Stdlib Require Import Sorting.Sorted.
From Stdlib Require Strings.String.
Import ListNotations.

Set Implicit Arguments.

(** ** JavaScript array primitives used by the sources *)

Module JS.
Section Arrays.
Context {A : Type}.

Definition len (l : list A) : Z := Z.of_nat (length l).

(** Relative index resolution of [Array.prototype.slice]: a negative
    index counts from the end, and the result is clamped to [0, len]. *)
Definition relIndex (n k : Z) : Z :=
  if (k <? 0)%Z then Z.max (n + k) 0 else Z.min k n.

(** [l.slice(s, e)] *)
Definition slice (l : list A) (s e : Z) : list A :=
  let a := relIndex (len l) s in
  let b := relIndex (len l) e in
  firstn (Z.to_nat (b - a)) (skipn (Z.to_nat a) l).


(** [l.splice(0, k)], seen as the array left in [l]: the first [k]
    elements are removed ([k] is clamped to [0, len]). *)
Definition splice0 (l : list A) (k : Z) : list A :=
  skipn (Z.to_nat (Z.min (Z.max k 0) (len l))) l.

(** [l[i]]: [None] stands for [undefined]. *)
Definition get (l : list A) (i : Z) : option A :=
  if (i <? 0)%Z then None else nth_error l (Z.to_nat i).

End Arrays.
End JS.

(** ** Ingestion buffer *)

Module Buffer.
Section WithSample.
Context {A : Type}.

(** The last [c] elements of [l] (all of [l] when it is shorter). *)
Definition lastn (c : nat) (l : list A) : list A := skipn (length l - c) l.

(** *** [useTelemetry.ts]: [pushPoint] *)

Definition maxPoints : Z := 60 * 60 * 4.

Definition pushPoint (prev : list A) (p : A) : list A :=
  let next := prev ++ [p] in
  if (JS.len next >? maxPoints)%Z
  then JS.splice0 next (JS.len next - maxPoints)
  else next.

(** Calling [pushPoint] once per sample, starting from [prev]. *)
Definition pushPoints (prev : list A) (ps : list A) : list A :=
  fold_left pushPoint ps prev.

(** *** Dashboard: pending batch and the flush callback *)











End WithSample.


End Buffer.

(** ** Samples and loops *)

Record TelemetryPoint : Type := mkPoint {
  t : Q;        (* timestamp in seconds *)
  speed : Q;    (* m/s *)
  current : Q;  (* A *)
  temp : Q      (* degrees C *)
}.

(** [a < b] on numbers. *)
Definition Qltb (a b : Q) : bool := negb (Qle_bool b a).

(** [for (let j = a; j < b; j++) body], threading a state [S]; [None] is an
    exception raised by the body (a property read on [undefined]). *)
Fixpoint forRange {S : Type} (n : nat) (j : Z) (body : Z -> S -> option S)
    (s : S) : option S :=
  match n with
  | O => Some s
  | Datatypes.S n' =>
      match body j s with
      | Some s' => forRange n' (j + 1) body s'
      | None => None
      end
  end.

Definition forLoop {S : Type} (a b : Z) (body : Z -> S -> option S) (s : S)
    : option S :=
  forRange (Z.to_nat (b - a)) a body s.

(** ** Downsampling engine *)

Module Downsample.

(** *** Largest-Triangle-Three-Buckets

    The budget [threshold] counts points and is an integer; the buckets
    are keyed on the [speed] channel. *)

Section LTTB.
Variable data : list TelemetryPoint.
Variable threshold : Z.

Definition bucketSize : Q :=
  inject_Z (JS.len data - 2) / inject_Z (threshold - 2).

(** [Math.floor(k * bucketSize) + 1] *)
Definition bucketBound (k : Z) : Z :=
  (Qfloor (inject_Z k * bucketSize) + 1)%Z.

(** The loop that sums the next bucket: state
    [(avgNextX, avgNextY, nextBucketLength)]. *)
Definition sumNext (j : Z) (s : Q * Q * Z) : option (Q * Q * Z) :=
  let '(avgNextX, avgNextY, nextBucketLength) := s in
  match JS.get data j with
  | Some p => Some (avgNextX + t p, avgNextY + speed p,
                    (nextBucketLength + 1)%Z)
  | None => None
  end.

Definition triangleArea (prevPoint p : TelemetryPoint)
    (avgNextX avgNextY : Q) : Q :=
  Qabs ((t prevPoint - avgNextX) * (speed p - speed prevPoint)
        - (t prevPoint - t p) * (avgNextY - speed prevPoint)) * (1 # 2).

(** The loop that scans the current bucket: state
    [(maxArea, maxAreaIndex)]. *)
Definition scanBucket (prevPoint : TelemetryPoint) (avgNextX avgNextY : Q)
    (j : Z) (s : Q * Z) : option (Q * Z) :=
  let '(maxArea, maxAreaIndex) := s in
  match JS.get data j with
  | Some p =>
      let area := triangleArea prevPoint p avgNextX avgNextY in
      if Qltb maxArea area then Some (area, j)
      else Some (maxArea, maxAreaIndex)
  | None => None
  end.

(** One iteration of the outer loop: state [(sampled, bucketIndex)].
    Pushing [data[maxAreaIndex]] when that index is out of range would
    push [undefined] in JavaScript; the model reports it as [None]. *)
Definition lttbStep (i : Z) (s : list TelemetryPoint * Z)
    : option (list TelemetryPoint * Z) :=
  let '(sampled, bucketIndex) := s in
  let bucketStart := bucketBound bucketIndex in
  let bucketEnd := bucketBound (bucketIndex + 1) in
  let nextBucketStart := bucketBound (bucketIndex + 1) in
  let nextBucketEnd :=
    Z.min (bucketBound (bucketIndex + 2)) (JS.len data - 1) in
  match forLoop nextBucketStart nextBucketEnd sumNext (0, 0, 0%Z) with
  | None => None
  | Some (sumX, sumY, nextBucketLength) =>
      let avgNextX :=
        if (nextBucketLength >? 0)%Z
        then sumX / inject_Z nextBucketLength else sumX in
      let avgNextY :=
        if (nextBucketLength >? 0)%Z
        then sumY / inject_Z nextBucketLength else sumY in
      match JS.get sampled (JS.len sampled - 1) with
      | None => None
      | Some prevPoint =>
          match forLoop bucketStart bucketEnd
                  (scanBucket prevPoint avgNextX avgNextY)
                  (- (1), bucketStart) with
          | None => None
          | Some (_, maxAreaIndex) =>
              match JS.get data maxAreaIndex with
              | None => None
              | Some p => Some (sampled ++ [p], (bucketIndex + 1)%Z)
              end
          end
      end
  end.

Definition downsampleLTTB : option (list TelemetryPoint) :=
  if ((JS.len data <=? threshold) || (threshold <=? 2))%Z then Some data
  else
    match JS.get data 0 with
    | None => None
    | Some first =>
        match forLoop 1 (threshold - 1) lttbStep ([first], 0%Z) with
        | None => None
        | Some (sampled, _) =>
            match JS.get data (JS.len data - 1) with
            | None => None
            | Some last => Some (sampled ++ [last])
            end
        end
    end.
End LTTB.

(** *** Min-max bucketing *)

Definition channelSum (p : TelemetryPoint) : Q := speed p + current p + temp p.

(** The [for (const point of bucket)] scan: state
    [(minPoint, maxPoint, minValue, maxValue)]. *)
Definition scanMinMax (s : TelemetryPoint * TelemetryPoint * Q * Q)
    (point : TelemetryPoint) : TelemetryPoint * TelemetryPoint * Q * Q :=
  let '(minPoint, maxPoint, minValue, maxValue) := s in
  let value := channelSum point in
  let '(minPoint, minValue) :=
    if Qltb value minValue then (point, value) else (minPoint, minValue) in
  let '(maxPoint, maxValue) :=
    if Qltb maxValue value then (point, value) else (maxPoint, maxValue) in
  (minPoint, maxPoint, minValue, maxValue).

(** What one bucket pushes onto [downsampled]; [None] when the bucket is
    empty ([bucket[0].speed] on [undefined]). *)
Definition emitBucket (bucket : list TelemetryPoint)
    : option (list TelemetryPoint) :=
  match bucket with
  | [] => None
  | [b0] => Some [b0]
  | b0 :: _ =>
      let '(minPoint, maxPoint, _, _) :=
        fold_left scanMinMax bucket (b0, b0, channelSum b0, channelSum b0) in
      if Qltb (t minPoint) (t maxPoint)
      then Some [minPoint; maxPoint]
      else Some [maxPoint; minPoint]
  end.

Section MinMax.
Variable data : list TelemetryPoint.
Variable targetPoints : Z.

(** [Math.ceil(data.length / targetPoints)], for [targetPoints <> 0]. *)
Definition minMaxBucketSize : Z :=
  Qceiling (inject_Z (JS.len data) / inject_Z targetPoints).

(** [for (let i = 0; i < data.length; i += bucketSize)]: [fuel] bounds
    the number of iterations, [None] is a loop that does not finish
    within it or a raised exception. *)
Fixpoint minMaxLoop (fuel : nat) (i : Z) (downsampled : list TelemetryPoint)
    : option (list TelemetryPoint) :=
  if (i <? JS.len data)%Z then
    match fuel with
    | O => None
    | S fuel' =>
        let bucket :=
          JS.slice data i (Z.min (i + minMaxBucketSize) (JS.len data)) in
        match emitBucket bucket with
        | None => None
        | Some out =>
            minMaxLoop fuel' (i + minMaxBucketSize) (downsampled ++ out)
        end
    end
  else Some downsampled.

(** For [targetPoints = 0] the bucket size is [Infinity] in JavaScript:
    the loop runs once, on a bucket that is the whole input. *)
Definition downsampleMinMax : option (list TelemetryPoint) :=
  if (JS.len data <=? targetPoints)%Z then Some data
  else if (targetPoints =? 0)%Z then emitBucket data
  else minMaxLoop (length data) 0 [].
End MinMax.

(** *** Vocabulary of the properties *)

(** [out] lists the elements of [data] found at the positions [idxs]. *)
Definition selects (data : list TelemetryPoint) (idxs : list Z)
    (out : list TelemetryPoint) : Prop :=
  Forall2 (fun i p => JS.get data i = Some p) idxs out.

(** Positions that go strictly forward through the input. *)
Definition increasing (idxs : list Z) : Prop := StronglySorted Z.lt idxs.

(** Timestamps never go back along the sequence. *)
Definition timeOrdered (l : list TelemetryPoint) : Prop :=
  StronglySorted (fun p q => t p <= t q) l.

(** The buckets visited by the loop of [downsampleMinMax], in order. *)
Fixpoint bucketsFrom (data : list TelemetryPoint) (bucketSize : Z)
    (fuel : nat) (i : Z) : list (list TelemetryPoint) :=
  if (i <? JS.len data)%Z then
    match fuel with
    | O => []
    | S fuel' =>
        JS.slice data i (Z.min (i + bucketSize) (JS.len data))
        :: bucketsFrom data bucketSize fuel' (i + bucketSize)
    end
  else [].

Definition buckets (data : list TelemetryPoint) (targetPoints : Z)
    : list (list TelemetryPoint) :=
  bucketsFrom data (minMaxBucketSize data targetPoints) (length data) 0.

(** Sample inputs: six points at times 0..5 whose last two channel sums
    coincide, and ten points at times 0..9. *)
Definition sample (time value : Z) : TelemetryPoint :=
  mkPoint (inject_Z time) (inject_Z value) 0 0.

Definition sixPoints : list TelemetryPoint :=
  [sample 0 1; sample 1 2; sample 2 3; sample 3 4; sample 4 5; sample 5 5].

Definition tenPoints : list TelemetryPoint :=
  [sample 0 0; sample 1 1; sample 2 4; sample 3 2; sample 4 2;
   sample 5 4; sample 6 1; sample 7 0; sample 8 1; sample 9 4].

End Downsample.

(** ** Connection manager: the [onclose] handler of [connectWebSocket] *)

Module Connection.

Record ConnState : Type := mkConn {
  connected : bool;                 (* [wsStatus.connected] *)
  isMockMode : bool;                (* the state read by the handler *)
  reconnectAttempts : Z;            (* [reconnectAttemptsRef.current] *)
  heartbeatRunning : bool;          (* [heartbeatIntervalRef] is ticking *)
  reconnectTimer : option Z         (* delay of the pending [setTimeout] *)
}.

(** [Math.min(1000 * Math.pow(2, attempts), 30000)], for the
    non-negative integer [attempts] the counter ranges over. *)
Definition backoffDelay (attempts : Z) : Z :=
  Z.min (1000 * 2 ^ attempts) 30000.

(** [ws.onclose].  [MOCK_DATA_ENABLED] is a constant of the source; it is
    a parameter here so that both configurations can be run. *)
Definition onclose (MOCK_DATA_ENABLED : bool) (st : ConnState) : ConnState :=
  let st :=
    mkConn false (isMockMode st) (reconnectAttempts st) false
           (reconnectTimer st) in
  if MOCK_DATA_ENABLED && negb (isMockMode st) then
    mkConn (connected st) true (reconnectAttempts st) (heartbeatRunning st)
           (reconnectTimer st)
  else
    let delay := backoffDelay (reconnectAttempts st) in
    let attempts := (reconnectAttempts st + 1)%Z in
    if (attempts <? 3)%Z then
      mkConn (connected st) (isMockMode st) attempts (heartbeatRunning st)
             (Some delay)
    else if MOCK_DATA_ENABLED then
      mkConn (connected st) true attempts (heartbeatRunning st)
             (reconnectTimer st)
    else
      mkConn (connected st) (isMockMode st) attempts (heartbeatRunning st)
             (reconnectTimer st).

(** The reconnect timer fires: it is consumed and [connectWebSocket]
    opens a new socket, which is not connected yet. *)
Definition reconnectFires (st : ConnState) : ConnState :=
  mkConn (connected st) (isMockMode st) (reconnectAttempts st)
         (heartbeatRunning st) None.

(** [ws.onopen] *)
Definition onopen (st : ConnState) : ConnState :=
  mkConn true false 0 true (reconnectTimer st).

(** The connection states of the design, read off the handler's state. *)
Inductive ConnectionState : Type :=
| Disconnected
| Connecting
| Connected
| DegradedSynthetic.

Definition connectionState (st : ConnState) : ConnectionState :=
  if isMockMode st then DegradedSynthetic
  else if connected st then Connected
  else match reconnectTimer st with
       | Some _ => Connecting
       | None => Disconnected
       end.

Definition initial : ConnState := mkConn false false 0 false None.

(** A failed attempt: the socket closes, and the pending reconnect (if
    one was scheduled) fires before the next close. *)
Definition failedAttempt (MOCK_DATA_ENABLED : bool) (st : ConnState)
    : ConnState :=
  onclose MOCK_DATA_ENABLED (reconnectFires st).

End Connection.

(** ** Synthetic generator: [generateMockData] *)

Module Synthetic.
Section WithSin.
(** [Math.sin], which has no rational counterpart, is a parameter. *)
Variable sin : Q -> Q.

Definition MOCK_DATA_INTERVAL : Q := 50.

Record GenState : Type := mkGen {
  mockTime : Q;                             (* [mockTimeRef.current] *)
  pending : list TelemetryPoint             (* [pendingDataRef.current] *)
}.

(** The three [Math.random()] draws of one tick, each in [0, 1). *)
Record Draws : Type := mkDraws { uSpeed : Q; uCurrent : Q; uTemp : Q }.

Definition deltaT (rate : Q) : Q := (MOCK_DATA_INTERVAL / 1000) * rate.

Definition baseSpeed (clock : Q) : Q := 30 + sin (clock * (1 # 10)) * 15.
Definition baseCurrent (clock : Q) : Q := 60 + sin (clock * (15 # 100)) * 25.
Definition baseTemp (clock : Q) : Q := 50 + sin (clock * (5 # 100)) * 20.

(** [(Math.random() - 0.5) * w] *)
Definition noise (u w : Q) : Q := (u - (1 # 2)) * w.

Definition mockPoint (clock : Q) (r : Draws) : TelemetryPoint :=
  mkPoint clock
          (Qmax 0 (baseSpeed clock + noise (uSpeed r) 5))
          (Qmax 0 (baseCurrent clock + noise (uCurrent r) 10))
          (Qmax 0 (baseTemp clock + noise (uTemp r) 8)).

(** One call of [generateMockData]; [rate] is
    [Number.parseFloat(playbackRate)].  The batch timer it restarts is
    the flush of the ingestion buffer. *)
Definition generateMockData (isPlaying : bool) (rate : Q) (r : Draws)
    (st : GenState) : GenState :=
  if negb isPlaying then st
  else
    let clock := mockTime st + deltaT rate in
    mkGen clock (pending st ++ [mockPoint clock r]).

End WithSin.
End Synthetic.

(** ** Viewport controller *)

Module Viewport.

Record ChartDomain : Type := mkDomain {
  xMin : Q;
  xMax : Q;
  yMin : Q;
  yMax : Q
}.

(** [getBoundingClientRect()] of the chart container. *)
Record Rect : Type := mkRect { left : Q; width : Q }.

Record ViewState : Type := mkView {
  chartDomain : option ChartDomain;        (* [null] is [None] *)
  followTail : bool;
  isDragging : bool;
  dragStart : option (Q * ChartDomain)     (* [{ x, domain }] *)
}.

Definition setChartDomain (d : option ChartDomain) (st : ViewState) :=
  mkView d (followTail st) (isDragging st) (dragStart st).

Definition setFollowTail (b : bool) (st : ViewState) :=
  mkView (chartDomain st) b (isDragging st) (dragStart st).

(** [{ ...d, xMin: a, xMax: b }] *)
Definition withX (d : ChartDomain) (a b : Q) : ChartDomain :=
  mkDomain a b (yMin d) (yMax d).

Definition MIN_ZOOM_SPAN : Q := 2.
Definition ZOOM_SENSITIVITY : Q := 1 # 10.

(** [isNaN] on a rational. *)
Definition isNaN (x : Q) : bool := false.

(** [Math.min(...data.map(d => d.t))] and [Math.max(...)] of a non-empty
    buffer [d0 :: rest]. *)
Definition minT (d0 : TelemetryPoint) (rest : list TelemetryPoint) : Q :=
  fold_left Qmin (map t rest) (t d0).

Definition maxT (d0 : TelemetryPoint) (rest : list TelemetryPoint) : Q :=
  fold_left Qmax (map t rest) (t d0).

(** [(e.clientX - rect.left) / rect.width] *)
Definition mouseX (rect : Rect) (clientX : Q) : Q :=
  (clientX - left rect) / width rect.

Definition zoomFactor (deltaY : Q) : Q :=
  if Qltb 0 deltaY then 1 + ZOOM_SENSITIVITY else 1 - ZOOM_SENSITIVITY.

(** The window around the anchored time, before any clamping:
    [mouseT], [newXMin], [newXMax] of the wheel handlers. *)
Definition mouseT (dom : ChartDomain) (p : Q) : Q :=
  xMin dom + p * (xMax dom - xMin dom).

Definition zoomWindow (dom : ChartDomain) (p newSpan : Q) : Q * Q :=
  let currentSpan := xMax dom - xMin dom in
  let mouseT := mouseT dom p in
  let newXMin := mouseT - (mouseT - xMin dom) * (newSpan / currentSpan) in
  let newXMax := newXMin + newSpan in
  (newXMin, newXMax).

(** The initial domain computed by both dashboards. *)
Definition initialDomain (follow : bool) (d0 : TelemetryPoint)
    (rest : list TelemetryPoint) : ChartDomain :=
  let minT := minT d0 rest in
  let maxT := maxT d0 rest in
  mkDomain (if follow then Qmax 0 (maxT - 30) else minT) maxT 0 100.


Definition handleMouseUp (st : ViewState) : ViewState :=
  mkView (chartDomain st) (followTail st) false None.

Definition handleDoubleClick (data : list TelemetryPoint) (st : ViewState)
    : ViewState :=
  match data with
  | [] => st
  | d0 :: rest =>
      mkView (Some (mkDomain (minT d0 rest) (maxT d0 rest) 0 100)) true
             (isDragging st) (dragStart st)
  end.

(** *** The clamped dashboard *)

Module Clamped.

Definition zoomSpan (dom : ChartDomain) (minT maxT deltaY : Q) : Q :=
  let totalDataSpan := maxT - minT in
  let MAX_ZOOM_SPAN := totalDataSpan * (12 # 10) in
  let currentSpan := xMax dom - xMin dom in
  let newSpan := currentSpan * zoomFactor deltaY in
  Qmax MIN_ZOOM_SPAN (Qmin MAX_ZOOM_SPAN newSpan).

(** The three clamping statements of [handleWheel], in order. *)
Definition clampLow (minT newSpan : Q) (w : Q * Q) : Q * Q :=
  let '(newXMin, newXMax) := w in
  if Qltb newXMin minT then (minT, minT + newSpan) else (newXMin, newXMax).

Definition clampHigh (maxT newSpan : Q) (w : Q * Q) : Q * Q :=
  let '(newXMin, newXMax) := w in
  if Qltb maxT newXMax then (maxT - newSpan, maxT) else (newXMin, newXMax).

Definition clampCenter (minT maxT newSpan : Q) (w : Q * Q) : Q * Q :=
  let '(newXMin, newXMax) := w in
  if Qltb newXMin minT || Qltb maxT newXMax then
    let center := (minT + maxT) / 2 in
    let newXMin := center - newSpan / 2 in
    let newXMax := center + newSpan / 2 in
    if Qltb newXMin minT then (minT, maxT) else (newXMin, newXMax)
  else (newXMin, newXMax).

Definition clampWindow (minT maxT newSpan : Q) (w : Q * Q) : Q * Q :=
  clampCenter minT maxT newSpan
    (clampHigh maxT newSpan (clampLow minT newSpan w)).

(** The safety check: [true] when the update is skipped. *)
Definition invalidRange (w : Q * Q) : bool :=
  let '(newXMin, newXMax) := w in
  Qle_bool newXMax newXMin || isNaN newXMin || isNaN newXMax.

Definition handleWheel (playing : bool) (data : list TelemetryPoint)
    (rect : option Rect) (clientX deltaY : Q) (st : ViewState)
    : ViewState :=
  if playing then st
  else
    match chartDomain st, data with
    | Some dom, d0 :: rest =>
        let st := setFollowTail false st in
        match rect with
        | None => st
        | Some rect =>
            let minT := minT d0 rest in
            let maxT := maxT d0 rest in
            let p := mouseX rect clientX in
            let newSpan := zoomSpan dom minT maxT deltaY in
            let w := clampWindow minT maxT newSpan
                       (zoomWindow dom p newSpan) in
            if invalidRange w then st
            else setChartDomain (Some (withX dom (fst w) (snd w))) st
        end
    | _, _ => st
    end.

(** The domain a drag produces from the snapshot [dom] taken at mouse
    down, for the pixel delta fraction [deltaX]. *)
Definition pan (dom : ChartDomain) (deltaX : Q)
    (data : list TelemetryPoint) (hz : Q) : ChartDomain :=
  let span := xMax dom - xMin dom in
  let deltaT := deltaX * span in
  let newXMin := xMin dom - deltaT in
  let newXMax := xMax dom - deltaT in
  let minTime := 0 in
  let maxTime := inject_Z (JS.len data - 1) / hz in
  let '(clampedXMin, clampedXMax) :=
    if Qltb newXMin minTime then
      let overflow := minTime - newXMin in
      (minTime, newXMax + overflow)
    else (newXMin, newXMax) in
  let '(clampedXMin, clampedXMax) :=
    if Qltb maxTime clampedXMax then
      let overflow := clampedXMax - maxTime in
      (clampedXMin - overflow, maxTime)
    else (clampedXMin, clampedXMax) in
  withX dom clampedXMin clampedXMax.

Definition handleMouseMove (data : list TelemetryPoint) (hz : Q)
    (rect : option Rect) (clientX : Q) (st : ViewState) : ViewState :=
  if negb (isDragging st) then st
  else
    match dragStart st, rect with
    | Some (x, dom), Some rect =>
        let deltaX := (clientX - x) / width rect in
        setChartDomain (Some (pan dom deltaX data hz)) st
    | _, _ => st
    end.

(** The body of the effect commented "Initialize chart domain when data
    first arrives". *)
Definition domainEffect (data : list TelemetryPoint) (st : ViewState)
    : ViewState :=
  match data with
  | [] => st
  | d0 :: rest =>
      setChartDomain (Some (initialDomain (followTail st) d0 rest)) st
  end.

(** The effect's dependency list is [[data.length]]: after a render the
    body runs when the length differs from the one of the previous
    render ([prevLength]). *)
Definition afterRender (prevLength : Z) (data : list TelemetryPoint)
    (st : ViewState) : ViewState :=
  if (JS.len data =? prevLength)%Z then st else domainEffect data st.

End Clamped.

(** *** The plain dashboard *)

Module Plain.

Definition handleWheel (data : list TelemetryPoint) (rect : option Rect)
    (clientX deltaY : Q) (st : ViewState) : ViewState :=
  match chartDomain st, data with
  | Some dom, _ :: _ =>
      let st := setFollowTail false st in
      match rect with
      | None => st
      | Some rect =>
          let p := mouseX rect clientX in
          let currentSpan := xMax dom - xMin dom in
          let newSpan :=
            Qmax MIN_ZOOM_SPAN (currentSpan * zoomFactor deltaY) in
          let w := zoomWindow dom p newSpan in
          setChartDomain (Some (withX dom (fst w) (snd w))) st
      end
  | _, _ => st
  end.

Definition pan (dom : ChartDomain) (deltaX : Q) : ChartDomain :=
  let span := xMax dom - xMin dom in
  let deltaT := deltaX * span in
  withX dom (xMin dom - deltaT) (xMax dom - deltaT).

Definition handleMouseMove (rect : option Rect) (clientX : Q)
    (st : ViewState) : ViewState :=
  if negb (isDragging st) then st
  else
    match dragStart st, rect with
    | Some (x, dom), Some rect =>
        let deltaX := (clientX - x) / width rect in
        setChartDomain (Some (pan dom deltaX)) st
    | _, _ => st
    end.

(** The effect body, guarded by [!chartDomain]. *)
Definition domainEffect (data : list TelemetryPoint) (st : ViewState)
    : ViewState :=
  match data, chartDomain st with
  | d0 :: rest, None =>
      setChartDomain (Some (initialDomain (followTail st) d0 rest)) st
  | _, _ => st
  end.

End Plain.

(** *** Sequences of zoom and pan operations *)






(** The width of the visible time range. *)
Definition span (d : ChartDomain) : Q := xMax d - xMin d.

(** A domain is valid when it is not inverted and not collapsed. *)
Definition validDomain (d : ChartDomain) : Prop := xMin d < xMax d.




End Viewport.

(** ** Series visibility flags *)

Module Series.

Record Flags : Type := mkFlags {
  speed : bool;
  current : bool;
  temp : bool
}.

(** [keyof SeriesFlags] *)
Inductive Key : Type := Speed | Current | Temp.

Definition get (key : Key) (f : Flags) : bool :=
  match key with
  | Speed => speed f
  | Current => current f
  | Temp => temp f
  end.

(** [prev => ({ ...prev, [key]: !prev[key] })] *)
Definition toggle (key : Key) (prev : Flags) : Flags :=
  match key with
  | Speed => mkFlags (negb (speed prev)) (current prev) (temp prev)
  | Current => mkFlags (speed prev) (negb (current prev)) (temp prev)
  | Temp => mkFlags (speed prev) (current prev) (negb (temp prev))
  end.

End Series.

(** ** The telemetry hook ([useTelemetry.ts]) *)

Module Hook.

(** The state of the hook.  [timerRef] is [None] for [null]; a running
    interval is represented by the sample rate its callback has captured,
    since the callback created by [play] keeps reading that [hz].  The
    [followTail] flag, which the hook only stores, is the one of
    [Viewport.ViewState]. *)
Record HookState : Type := mkHook {
  playing : bool;
  series : Series.Flags;
  data : list TelemetryPoint;
  hz : Q;
  timerRef : option Q;
  indexRef : Z
}.

Definition initialHook (initialHz : Q) : HookState :=
  mkHook false (Series.mkFlags true true true) [] initialHz None 0.

Definition pushPoint (p : TelemetryPoint) (st : HookState) : HookState :=
  mkHook (playing st) (series st) (Buffer.pushPoint (data st) p) (hz st)
         (timerRef st) (indexRef st + 1).

(** The callback of the interval started by [play]; [r] holds its three
    [Math.random()] draws.  Without a running interval nothing calls it. *)
Definition tick (r : Synthetic.Draws) (st : HookState) : HookState :=
  match timerRef st with
  | None => st
  | Some capturedHz =>
      let i := indexRef st in
      let t := inject_Z i / capturedHz in
      pushPoint (mkPoint t (2 + Synthetic.uSpeed r) (5 + Synthetic.uCurrent r)
                         (20 + Synthetic.uTemp r)) st
  end.

Definition play (st : HookState) : HookState :=
  if playing st then st
  else mkHook true (series st) (data st) (hz st) (Some (hz st)) (indexRef st).

Definition pause (st : HookState) : HookState :=
  mkHook false (series st) (data st) (hz st) None (indexRef st).

Definition toggleSeries (key : Series.Key) (st : HookState) : HookState :=
  mkHook (playing st) (Series.toggle key (series st)) (data st) (hz st)
         (timerRef st) (indexRef st).

Definition clear (st : HookState) : HookState :=
  mkHook (playing st) (series st) [] (hz st) (timerRef st) 0.

Definition setHz (h : Q) (st : HookState) : HookState :=
  mkHook (playing st) (series st) (data st) h (timerRef st) (indexRef st).

(** Successive interval callbacks, one per element of [rs]. *)
Definition ticks (rs : list Synthetic.Draws) (st : HookState) : HookState :=
  fold_left (fun s r => tick r s) rs st.

(** The mock samples with indices [i], [i + 1], ... at rate [h]. *)
Fixpoint mockPoints (h : Q) (i : Z) (rs : list Synthetic.Draws)
    : list TelemetryPoint :=
  match rs with
  | [] => []
  | r :: rs' =>
      mkPoint (inject_Z i / h) (2 + Synthetic.uSpeed r)
              (5 + Synthetic.uCurrent r) (20 + Synthetic.uTemp r)
      :: mockPoints h (i + 1) rs'
  end.

End Hook.

(** ** Aggregation: [calculateMetrics], [kpiData], [memoizedKpiData] *)

Module KPI.

Record KPIMetrics : Type := mkMetrics {
  avg : Q;
  max : Q;
  last : Q
}.

Definition zeroMetrics : KPIMetrics := mkMetrics 0 0 0.

(** One iteration of the loop of [calculateMetrics]: state [(sum, max)]. *)
Definition scanValue (s : Q * Q) (val : Q) : Q * Q :=
  let '(sum, max) := s in
  (sum + val, if Qltb max val then val else max).

(** [values[values.length - 1]] is read on a non-empty array only; the
    default stands for [undefined]. *)
Definition calculateMetrics (values : list Q) : KPIMetrics :=
  match values with
  | [] => zeroMetrics
  | v0 :: _ =>
      let '(sum, max) := fold_left scanValue values (0, v0) in
      mkMetrics (sum / inject_Z (JS.len values)) max
                (match JS.get values (JS.len values - 1) with
                 | Some v => v
                 | None => 0
                 end)
  end.

(** [l.map((d) => d.speed)] and its two siblings. *)
Definition speeds (l : list TelemetryPoint) : list Q := map speed l.
Definition currents (l : list TelemetryPoint) : list Q := map current l.
Definition temps (l : list TelemetryPoint) : list Q := map temp l.

Record KPIData : Type := mkKPI {
  speed : KPIMetrics;
  current : KPIMetrics;
  temp : KPIMetrics
}.

Definition zeroKPI : KPIData := mkKPI zeroMetrics zeroMetrics zeroMetrics.

Definition perChannel (l : list TelemetryPoint) (series : Series.Flags)
    : KPIData :=
  mkKPI
    (if Series.speed series then calculateMetrics (speeds l) else zeroMetrics)
    (if Series.current series then calculateMetrics (currents l)
     else zeroMetrics)
    (if Series.temp series then calculateMetrics (temps l) else zeroMetrics).


(** [memoizedKpiData], over the charted samples. *)
Definition memoizedKpiData (chartData : list TelemetryPoint)
    (series : Series.Flags) : KPIData :=
  if (JS.len chartData =? 0)%Z then zeroKPI
  else perChannel chartData series.

(** The sum of a list of numbers, added from the left starting at zero. *)
Definition Qsum (l : list Q) : Q := fold_left Qplus l 0.

End KPI.

(** ** The KPI card: thresholds and badge *)

Module KPICard.

Record Threshold : Type := mkThreshold { max : Q; warning : Q }.

(** [THRESHOLDS] *)
Definition speedThreshold : Threshold := mkThreshold 50 45.
Definition currentThreshold : Threshold := mkThreshold 100 85.
Definition tempThreshold : Threshold := mkThreshold 80 70.

Definition isWarning (metrics : KPI.KPIMetrics) (threshold : Threshold)
    : bool :=
  Qle_bool (warning threshold) (KPI.max metrics).

Definition isCritical (metrics : KPI.KPIMetrics) (threshold : Threshold)
    : bool :=
  Qle_bool (max threshold) (KPI.max metrics).

Inductive Badge : Type := NoBadge | WarningBadge | CriticalBadge.

(** The badge rendered next to the title. *)
Definition badge (metrics : KPI.KPIMetrics) (threshold : Threshold)
    (enabled : bool) : Badge :=
  if enabled && (isCritical metrics threshold || isWarning metrics threshold)
  then (if isCritical metrics threshold then CriticalBadge else WarningBadge)
  else NoBadge.

End KPICard.

(** ** Dashboard controls around the viewport *)

Module Controls.
Import Viewport.

(** [chartData] of the clamped dashboard: the samples inside the domain. *)
Definition chartData (data : list TelemetryPoint)
    (chartDomain : option ChartDomain) : list TelemetryPoint :=
  if (JS.len data =? 0)%Z then []
  else
    match chartDomain with
    | None => data
    | Some dom =>
        if isNaN (xMin dom) || isNaN (xMax dom) then data
        else filter (fun d => Qle_bool (xMin dom) (t d)
                              && Qle_bool (t d) (xMax dom)) data
    end.

(** [chartData] of the plain dashboard: all the data, no filtering. *)
Definition chartDataPlain (data : list TelemetryPoint) : list TelemetryPoint :=
  data.

(** [toggleFollowTail] of the clamped dashboard. *)
Definition toggleFollowTail (data : list TelemetryPoint) (st : ViewState)
    : ViewState :=
  let newValue := negb (followTail st) in
  let st := setFollowTail newValue st in
  match data with
  | d0 :: rest =>
      if newValue then
        let minT := minT d0 rest in
        let maxT := maxT d0 rest in
        setChartDomain (Some (mkDomain (Qmax minT (maxT - 30)) maxT 0 25)) st
      else st
  | [] => st
  end.

(** [toggleFollowTail] of the plain dashboard. *)
Definition toggleFollowTailPlain (st : ViewState) : ViewState :=
  setFollowTail (negb (followTail st)) st.

(** [togglePlayback] of the clamped dashboard, on the hook and the view. *)
Definition togglePlayback (hs : Hook.HookState) (vs : ViewState)
    : Hook.HookState * ViewState :=
  if Hook.playing hs then (Hook.pause hs, vs)
  else
    let '(hs, vs) :=
      if (JS.len (Hook.data hs) >? 0)%Z
      then (Hook.clear hs, setChartDomain None vs)
      else (hs, vs) in
    (Hook.play hs, setFollowTail true vs).

(** [togglePlayback] of the plain dashboard. *)
Definition togglePlaybackPlain (hs : Hook.HookState) (vs : ViewState)
    : Hook.HookState * ViewState :=
  if Hook.playing hs then (Hook.pause hs, vs)
  else
    let '(hs, vs) :=
      if (JS.len (Hook.data hs) >? 0)%Z
      then (Hook.clear hs, setChartDomain None vs)
      else (hs, vs) in
    (Hook.play hs, vs).

(** The plain dashboard while the hook's interval runs: each callback is
    followed by a render, after which the guarded effect runs. *)
Definition tickPlain (s : Hook.HookState * ViewState) (r : Synthetic.Draws)
    : Hook.HookState * ViewState :=
  let hs := Hook.tick r (fst s) in
  (hs, Plain.domainEffect (Hook.data hs) (snd s)).

Definition ticksPlain (rs : list Synthetic.Draws)
    (s : Hook.HookState * ViewState) : Hook.HookState * ViewState :=
  fold_left tickPlain rs s.

End Controls.

(** ** Inbound messages: [ws.onmessage] *)

Module Wire.
Import Strings.String.
Local Open Scope string_scope.

(** A parsed message: its [type] tag, the [timestamp] of a pong and the
    fields a telemetry payload is read from. *)
Record Message : Type := mkMessage {
  type : string;
  timestamp : Z;
  point : TelemetryPoint
}.

(** [event.data]: either [JSON.parse] throws or it yields a message. *)
Inductive Frame : Type :=
| Unparseable
| Parsed (message : Message).

Record Session : Type := mkSession {
  latency : Z;                              (* [wsStatus.latency] *)
  pendingData : list TelemetryPoint         (* [pendingDataRef.current] *)
}.

(** [ws.onmessage]; [isPlaying] is the value captured by the handler and
    [now] is [Date.now()]. *)
Definition onmessage (isPlaying : bool) (now : Z) (frame : Frame)
    (s : Session) : Session :=
  match frame with
  | Unparseable => s
  | Parsed message =>
      if String.eqb (type message) "pong" then
        mkSession (now - timestamp message) (pendingData s)
      else if String.eqb (type message) "telemetry" && isPlaying then
        mkSession (latency s) (pendingData s ++ [point message])
      else s
  end.

(** The frames received one after the other, each with its arrival time. *)
Definition receive (isPlaying : bool) (frames : list (Z * Frame))
    (s : Session) : Session :=
  fold_left (fun s nf => onmessage isPlaying (fst nf) (snd nf) s) frames s.

(** The payloads of the frames typed ["telemetry"], in arrival order. *)
Fixpoint telemetryPoints (frames : list (Z * Frame)) : list TelemetryPoint :=
  match frames with
  | [] => []
  | (_, Parsed m) :: rest =>
      if String.eqb (type m) "telemetry" then point m :: telemetryPoints rest
      else telemetryPoints rest
  | (_, Unparseable) :: rest => telemetryPoints rest
  end.

End Wire.

(** ** Sequences of connection events *)

Module ConnectionRuns.
Import Connection.

Inductive ConnEvent : Type :=
| Open          (* [ws.onopen] *)
| Close         (* [ws.onclose] *)
| TimerFires.   (* the reconnect timeout *)

Definition connStep (MOCK_DATA_ENABLED : bool) (st : ConnState)
    (e : ConnEvent) : ConnState :=
  match e with
  | Open => onopen st
  | Close => onclose MOCK_DATA_ENABLED st
  | TimerFires => reconnectFires st
  end.

Definition connRun (MOCK_DATA_ENABLED : bool) (evs : list ConnEvent)
    (st : ConnState) : ConnState :=
  fold_left (connStep MOCK_DATA_ENABLED) evs st.

End ConnectionRuns.

(** ** Vocabulary for LTTB and for runs of the synthetic generator *)

Module LTTBModel.
Import Downsample.




End LTTBModel.

Module SyntheticRuns.
Import Synthetic.


End SyntheticRuns.

(** * Properties *)

(** ** Ingestion buffer *)

Module BufferFacts.
Import Buffer.

Section WithSample.
Context {A : Type}.

Lemma lastn_length (c : nat) (l : list A) : length (lastn c l) = Nat.min (length l) c.
Proof. unfold lastn. rewrite length_skipn. lia. Qed.

Lemma lastn_short (c : nat) (l : list A) : (length l <= c)%nat -> lastn c l = l.
Proof.
  intros H. unfold lastn.
  replace (length l - c)%nat with 0%nat by lia. reflexivity.
Qed.

(** Trimming early does not change what is retained in the end. *)
Lemma lastn_lastn_app (c : nat) (a b : list A) : lastn c (lastn c a ++ b) = lastn c (a ++ b).
Proof.
  unfold lastn.
  rewrite !skipn_app, !length_app, !length_skipn, skipn_skipn.
  f_equal; f_equal; lia.
Qed.

Lemma splice0_lastn (l : list A) (m : Z) :
  (0 <= m)%Z -> (JS.len l > m)%Z ->
  JS.splice0 l (JS.len l - m) = lastn (Z.to_nat m) l.
Proof.
  unfold JS.splice0, JS.len, lastn. intros H0 H. f_equal. lia.
Qed.


Lemma pushPoint_lastn (prev : list A) (p : A) :
  pushPoint prev p = lastn (Z.to_nat maxPoints) (prev ++ [p]).
Proof.
  unfold pushPoint.
  destruct (Z.gtb_spec (JS.len (prev ++ [p])) maxPoints) as [H | H].
  - apply splice0_lastn; [unfold maxPoints | ]; lia.
  - symmetry. apply lastn_short. unfold JS.len in H. lia.
Qed.

Lemma pushPoints_lastn (ps : list A) : forall a : list A,
  pushPoints (lastn (Z.to_nat maxPoints) a) ps
  = lastn (Z.to_nat maxPoints) (a ++ ps).
Proof.
  unfold pushPoints.
  induction ps as [| p ps IH]; intros a; simpl.
  - now rewrite app_nil_r.
  - rewrite pushPoint_lastn, lastn_lastn_app, IH, <- app_assoc.
    reflexivity.
Qed.

(** The hook's buffer after any number of [pushPoint] calls. *)
Lemma pushPoints_from_empty (ps : list A) :
  pushPoints [] ps = lastn (Z.to_nat maxPoints) ps.
Proof. apply (pushPoints_lastn ps []). Qed.







End WithSample.
End BufferFacts.

Module BufferSpec.
Import Buffer BufferFacts.






End BufferSpec.

(** ** Connection manager *)

Module ConnectionSpec.
Import Connection.

Lemma backoffDelay_small (a : Z) :
  (0 <= a <= 4)%Z -> backoffDelay a = (1000 * 2 ^ a)%Z.
Proof.
  intros H. unfold backoffDelay.
  assert (C : (a = 0 \/ a = 1 \/ a = 2 \/ a = 3 \/ a = 4)%Z) by lia.
  destruct C as [-> | [-> | [-> | [-> | ->]]]]; reflexivity.
Qed.

Lemma backoffDelay_capped (a : Z) : (backoffDelay a <= 30000)%Z.
Proof. unfold backoffDelay. lia. Qed.

(** With the fallback enabled every close ends in mock mode. *)
Lemma onclose_enabled_degrades (st : ConnState) :
  (3 <= reconnectAttempts st + 1)%Z \/ isMockMode st = false ->
  isMockMode (onclose true st) = true.
Proof.
  unfold onclose; cbn [isMockMode reconnectAttempts andb].
  destruct (isMockMode st) eqn:M; cbn [negb]; [| reflexivity].
  intros [H | H]; [| discriminate].
  destruct (Z.ltb_spec (reconnectAttempts st + 1) 3); [lia | reflexivity].
Qed.

(** C3: the delays computed for the attempt counter at 0, 1, 2 are 1000,
    2000 and 4000 ms, and with the fallback disabled the closes at counter
    0 and 1 schedule a reconnect with them; a close that brings the
    counter to 3 (or beyond) ends in mock mode when the fallback is
    enabled, and otherwise leaves the handler disconnected, schedules no
    reconnect and does not enter mock mode. *)
Theorem backoff_then_fallback (st : ConnState)
    (Hmax : (3 <= reconnectAttempts st + 1)%Z) :
  (backoffDelay 0 = 1000 /\ backoffDelay 1 = 2000 /\ backoffDelay 2 = 4000)%Z
  /\ (let s1 := failedAttempt false initial in
      let s2 := failedAttempt false s1 in
      let s3 := failedAttempt false s2 in
      reconnectTimer s1 = Some 1000%Z /\ connectionState s1 = Connecting /\
      reconnectTimer s2 = Some 2000%Z /\ connectionState s2 = Connecting /\
      reconnectTimer s3 = None /\ connectionState s3 = Disconnected /\
      reconnectAttempts s3 = 3%Z)
  /\ connectionState (onclose true st) = DegradedSynthetic
  /\ (let st' := onclose false st in
      connected st' = false /\
      isMockMode st' = isMockMode st /\
      reconnectTimer st' = reconnectTimer st /\
      reconnectAttempts st' = (reconnectAttempts st + 1)%Z)
  /\ (isMockMode st = false -> reconnectTimer st = None ->
      connectionState (onclose false st) = Disconnected).
Proof.
  split; [repeat split |].
  split; [cbv zeta; repeat split |].
  split.
  { unfold connectionState.
    rewrite onclose_enabled_degrades by (left; exact Hmax). reflexivity. }
  assert (E : onclose false st
              = mkConn false (isMockMode st) (reconnectAttempts st + 1)
                       false (reconnectTimer st)).
  { unfold onclose;
      cbn [andb isMockMode reconnectAttempts connected heartbeatRunning
           reconnectTimer].
    destruct (Z.ltb_spec (reconnectAttempts st + 1) 3); [lia | reflexivity]. }
  rewrite E. split.
  - cbv zeta. cbn [connected isMockMode reconnectTimer reconnectAttempts].
    repeat split.
  - intros M T. unfold connectionState.
    cbn [connected isMockMode reconnectTimer]. rewrite M, T. reflexivity.
Qed.

Lemma backoff_then_fallback_witness :
  (3 <= reconnectAttempts (mkConn true false 2 true None) + 1)%Z /\
  connectionState (onclose true (mkConn true false 2 true None))
  = DegradedSynthetic /\
  connectionState (onclose false (mkConn true false 2 true None))
  = Disconnected.
Proof.
  assert (H : (3 <= reconnectAttempts (mkConn true false 2 true None) + 1)%Z)
    by (cbn; lia).
  pose proof (backoff_then_fallback (mkConn true false 2 true None) H)
    as [_ [_ [D [_ N]]]].
  split; [exact H |]. split; [exact D |].
  apply N; reflexivity.
Defined.

End ConnectionSpec.

(** ** JavaScript arrays and loops *)

Module JSFacts.
Section Arrays.
Context {A : Type}.

Lemma get_Some (l : list A) (i : Z) (x : A) :
  JS.get l i = Some x ->
  (0 <= i < JS.len l)%Z /\ nth_error l (Z.to_nat i) = Some x.
Proof.
  unfold JS.get, JS.len. destruct (Z.ltb_spec i 0); [discriminate |].
  intros E. split; [| exact E].
  assert (Z.to_nat i < length l)%nat
    by (apply nth_error_Some; congruence).
  lia.
Qed.

Lemma get_in_range (l : list A) (i : Z) :
  (0 <= i < JS.len l)%Z -> exists x, JS.get l i = Some x.
Proof.
  unfold JS.get, JS.len. intros H.
  destruct (Z.ltb_spec i 0); [lia |].
  destruct (nth_error l (Z.to_nat i)) as [x |] eqn:E; [now exists x |].
  apply nth_error_None in E. lia.
Qed.

Lemma get_In (l : list A) (i : Z) (x : A) : JS.get l i = Some x -> In x l.
Proof. intros E. apply get_Some in E as [_ E]. eapply nth_error_In, E. Qed.

Lemma get_first (x : A) (l : list A) : JS.get (x :: l) 0 = Some x.
Proof. reflexivity. Qed.

Lemma get_last (l : list A) (x : A) :
  JS.get (l ++ [x]) (JS.len (l ++ [x]) - 1) = Some x.
Proof.
  unfold JS.get, JS.len. rewrite length_app; cbn [length].
  destruct (Z.ltb_spec (Z.of_nat (length l + 1) - 1) 0); [lia |].
  replace (Z.to_nat (Z.of_nat (length l + 1) - 1)) with (length l) by lia.
  rewrite nth_error_app2, Nat.sub_diag by lia. reflexivity.
Qed.

(** A slice within bounds is the segment between the two positions. *)
Lemma slice_inside (l : list A) (a b : Z) :
  (0 <= a <= b)%Z -> (b <= JS.len l)%Z ->
  JS.slice l a b = firstn (Z.to_nat (b - a)) (skipn (Z.to_nat a) l)
  /\ JS.len (JS.slice l a b) = (b - a)%Z.
Proof.
  intros Ha Hb. unfold JS.slice, JS.relIndex.
  destruct (Z.ltb_spec a 0); [lia |]. destruct (Z.ltb_spec b 0); [lia |].
  rewrite !Z.min_l by lia. split; [reflexivity |].
  unfold JS.len in *. rewrite length_firstn, length_skipn. lia.
Qed.

End Arrays.

Section Loops.
Context {S : Type}.

(** The invariant rule of the counting loop. *)
Lemma forRange_invariant (P : Z -> S -> Prop) (body : Z -> S -> option S)
    (n : nat) : forall (a : Z) (s : S),
  P a s ->
  (forall j s0, (a <= j < a + Z.of_nat n)%Z -> P j s0 ->
                exists s1, body j s0 = Some s1 /\ P (j + 1)%Z s1) ->
  exists s', forRange n a body s = Some s' /\ P (a + Z.of_nat n)%Z s'.
Proof.
  induction n as [| n IH]; intros a s H0 Hstep.
  - exists s. cbn [forRange]. rewrite Z.add_0_r. now split.
  - cbn [forRange].
    destruct (Hstep a s) as [s1 [E1 H1]]; [lia | exact H0 |].
    rewrite E1.
    destruct (IH (a + 1)%Z s1 H1) as [s' [E' H']].
    { intros j s0 Hj. apply Hstep. lia. }
    exists s'. split; [exact E' |].
    replace (a + Z.of_nat (Datatypes.S n))%Z
      with (a + 1 + Z.of_nat n)%Z by lia.
    exact H'.
Qed.

Lemma forLoop_invariant (P : Z -> S -> Prop) (body : Z -> S -> option S)
    (a b : Z) (s : S) :
  (a <= b)%Z -> P a s ->
  (forall j s0, (a <= j < b)%Z -> P j s0 ->
                exists s1, body j s0 = Some s1 /\ P (j + 1)%Z s1) ->
  exists s', forLoop a b body s = Some s' /\ P b s'.
Proof.
  intros Hab H0 Hstep. unfold forLoop.
  destruct (@forRange_invariant P body (Z.to_nat (b - a)) a s H0)
    as [s' [E H]].
  { intros j s0 Hj. apply Hstep. lia. }
  exists s'. split; [exact E |].
  replace b with (a + Z.of_nat (Z.to_nat (b - a)))%Z at 1 by lia.
  exact H.
Qed.

(** A loop over an empty range leaves the state as it is. *)
Lemma forLoop_empty (body : Z -> S -> option S) (a b : Z) (s : S) :
  (b <= a)%Z -> forLoop a b body s = Some s.
Proof.
  intros H. unfold forLoop. replace (Z.to_nat (b - a)) with 0%nat by lia.
  reflexivity.
Qed.

End Loops.
End JSFacts.

(** ** Largest-Triangle-Three-Buckets *)

Module LTTBFacts.
Import Downsample JSFacts.

Lemma increasing_snoc (l : list Z) (x : Z) :
  increasing l -> Forall (fun y => (y < x)%Z) l -> increasing (l ++ [x]).
Proof.
  unfold increasing. induction 1 as [| y l Hl IH Hy]; intros Hx; cbn [app].
  - repeat constructor.
  - inversion Hx; subst. constructor; [now apply IH |].
    apply Forall_app. split; [exact Hy | now repeat constructor].
Qed.

Section Fixed.
Variable data : list TelemetryPoint.
Variable threshold : Z.
Hypothesis Hlong : (JS.len data > threshold)%Z.
Hypothesis Hbudget : (threshold > 2)%Z.

Abbreviation n := (JS.len data).
Abbreviation bound := (bucketBound data threshold).

(** Bucket boundaries are integer quotients. *)
Lemma bucketBound_div (k : Z) :
  bound k = (k * (n - 2) / (threshold - 2) + 1)%Z.
Proof.
  unfold bucketBound, bucketSize. f_equal.
  rewrite Zdiv_Qdiv. apply Qfloor_comp.
  rewrite inject_Z_mult. unfold Qdiv. ring.
Qed.

Lemma bucketBound_0 : bound 0 = 1%Z.
Proof. rewrite bucketBound_div. reflexivity. Qed.

(** Every bucket holds at least one position, because the input is longer
    than the budget. *)
Lemma bucketBound_step (k : Z) : (bound k + 1 <= bound (k + 1))%Z.
Proof.
  rewrite !bucketBound_div.
  assert (E : (k * (n - 2) / (threshold - 2) + 1
               = (k * (n - 2) + 1 * (threshold - 2)) / (threshold - 2))%Z)
    by (rewrite Z.div_add by lia; reflexivity).
  rewrite E.
  apply Z.add_le_mono_r, Z.div_le_mono; lia.
Qed.

Lemma bucketBound_grows (d : nat) (k : Z) :
  (bound k + Z.of_nat d <= bound (k + Z.of_nat d))%Z.
Proof.
  induction d as [| d IH].
  - rewrite !Z.add_0_r. lia.
  - pose proof (bucketBound_step (k + Z.of_nat d)) as H.
    replace (k + Z.of_nat (S d))%Z with (k + Z.of_nat d + 1)%Z by lia.
    lia.
Qed.

Lemma bucketBound_last : bound (threshold - 2) = (n - 1)%Z.
Proof.
  rewrite bucketBound_div, Z.mul_comm, Z.div_mul by lia. lia.
Qed.

Lemma bucketBound_lower (k : Z) : (0 <= k)%Z -> (k + 1 <= bound k)%Z.
Proof.
  intros Hk. pose proof (bucketBound_grows (Z.to_nat k) 0) as H.
  rewrite bucketBound_0 in H.
  replace (0 + Z.of_nat (Z.to_nat k))%Z with k in H by lia. lia.
Qed.

Lemma bucketBound_upper (k : Z) :
  (k <= threshold - 2)%Z -> (bound k <= n - 1 - (threshold - 2 - k))%Z.
Proof.
  intros Hk.
  pose proof (bucketBound_grows (Z.to_nat (threshold - 2 - k)) k) as H.
  replace (k + Z.of_nat (Z.to_nat (threshold - 2 - k)))%Z
    with (threshold - 2)%Z in H by lia.
  rewrite bucketBound_last in H. lia.
Qed.

(** The averaging loop reads positions inside the input only. *)
Lemma sumNext_total (a b : Z) (s : Q * Q * Z) :
  (0 <= a)%Z -> (b <= n)%Z ->
  exists s', forLoop a b (sumNext data) s = Some s'.
Proof.
  intros Ha Hb. destruct (Z.le_gt_cases b a) as [E | E].
  - exists s. now apply forLoop_empty.
  - destruct (@forLoop_invariant _ (fun _ _ => True) (sumNext data) a b s)
      as [s' [Es _]]; [lia | exact I | | now exists s'].
    intros j [[x y] c] Hj _. unfold sumNext.
    destruct (@get_in_range _ data j) as [p Ep]; [lia |].
    rewrite Ep. eexists. split; [reflexivity | exact I].
Qed.

(** The scan of a non-empty bucket ends on a position of that bucket. *)
Lemma scanBucket_total (prevPoint : TelemetryPoint) (ax ay : Q) (a b : Z) :
  (0 <= a < b)%Z -> (b <= n)%Z ->
  exists m idx,
    forLoop a b (scanBucket data prevPoint ax ay) (- (1), a) = Some (m, idx)
    /\ (a <= idx < b)%Z.
Proof.
  intros Ha Hb.
  destruct (@forLoop_invariant _
              (fun j s => (a <= snd s)%Z /\ (snd s < j \/ snd s = a)%Z)
              (scanBucket data prevPoint ax ay) a b (- (1), a))
    as [[m idx] [Es [H1 H2]]]; [lia | cbn [snd]; lia | |].
  - intros j [m idx] Hj [H1 H2]. cbn [snd] in *. unfold scanBucket.
    destruct (@get_in_range _ data j) as [p Ep]; [lia |].
    rewrite Ep.
    destruct (Qltb m (triangleArea prevPoint p ax ay));
      eexists; (split; [reflexivity |]); cbn [snd]; lia.
  - exists m, idx. cbn [snd] in *. split; [exact Es | lia].
Qed.

(** One iteration of the outer loop appends one input element taken from
    the current bucket. *)
Lemma lttbStep_ok (i k : Z) (sampled : list TelemetryPoint) :
  (0 <= k <= threshold - 3)%Z -> sampled <> [] ->
  exists idx p,
    lttbStep data threshold i (sampled, k) = Some (sampled ++ [p], (k + 1)%Z)
    /\ JS.get data idx = Some p
    /\ (bound k <= idx < bound (k + 1))%Z.
Proof.
  intros Hk Hne. unfold lttbStep.
  pose proof (bucketBound_lower (k := k)) as L0.
  pose proof (bucketBound_step k) as S0.
  pose proof (bucketBound_upper (k := k + 1)) as U1.
  pose proof (bucketBound_lower (k := k + 1)) as L1.
  destruct (@sumNext_total (bound (k + 1))
              (Z.min (bound (k + 2)) (n - 1)) (0, 0, 0%Z))
    as [[[sx sy] c] Es]; [lia | lia |].
  rewrite Es.
  destruct (@get_in_range _ sampled (JS.len sampled - 1)) as [prev Ep].
  { unfold JS.len. destruct sampled; [congruence | cbn [length]; lia]. }
  rewrite Ep.
  match goal with
  | |- context [forLoop _ _ (scanBucket data prev ?ax ?ay) _] =>
      destruct (@scanBucket_total prev ax ay (bound k) (bound (k + 1)))
        as [m [idx [Ec Hidx]]]; [lia | lia |]
  end.
  rewrite Ec.
  destruct (@get_in_range _ data idx) as [p Eg]; [lia |].
  rewrite Eg. exists idx, p. repeat split; [exact Eg | lia | lia].
Qed.

(** The output of LTTB: the first input element, [threshold - 2] elements
    taken at strictly increasing interior positions, the last element. *)
Lemma lttb_structure :
  exists (mid : list Z) (out : list TelemetryPoint),
    downsampleLTTB data threshold = Some out
    /\ JS.len mid = (threshold - 2)%Z
    /\ increasing (0%Z :: mid ++ [(n - 1)%Z])
    /\ selects data (0%Z :: mid ++ [(n - 1)%Z]) out.
Proof.
  unfold downsampleLTTB.
  destruct (Z.leb_spec n threshold) as [H | _]; [lia |].
  destruct (Z.leb_spec threshold 2) as [H | _]; [lia |].
  cbn [orb].
  destruct (@get_in_range _ data 0) as [first Ef]; [lia |].
  destruct (@get_in_range _ data (n - 1)) as [last El]; [lia |].
  rewrite Ef.
  destruct (@forLoop_invariant _
              (fun i s =>
                 snd s = (i - 1)%Z /\
                 exists mid,
                   JS.len mid = (i - 1)%Z
                   /\ increasing (0%Z :: mid)
                   /\ Forall (fun x => (x < bound (i - 1))%Z) (0%Z :: mid)
                   /\ selects data (0%Z :: mid) (fst s))
              (lttbStep data threshold) 1 (threshold - 1) ([first], 0%Z))
    as [[sampled k] [Eloop [_ [mid [Lm [Im [Bm Sm]]]]]]].
  - lia.
  - cbn [fst snd]. change (1 - 1)%Z with 0%Z.
    split; [reflexivity |]. exists []. repeat split.
    + repeat constructor.
    + rewrite bucketBound_0. repeat constructor.
    + repeat constructor. exact Ef.
  - intros i [sampled k] Hi [Ek [mid [Lm [Im [Bm Sm]]]]].
    cbn [fst snd] in *. subst k.
    destruct (@lttbStep_ok i (i - 1) sampled) as [idx [p [Es [Eg Hidx]]]].
    + lia.
    + inversion Sm; subst; discriminate.
    + rewrite Es. eexists. split; [reflexivity |]. cbn [fst snd].
      split; [lia |]. exists (mid ++ [idx]).
      replace (i + 1 - 1)%Z with (i - 1 + 1)%Z by lia.
      repeat split.
      * unfold JS.len in *. rewrite length_app; cbn [length]. lia.
      * apply (increasing_snoc (l := 0%Z :: mid)); [exact Im |].
        eapply Forall_impl; [| exact Bm]. cbn beta. intros; lia.
      * change (0%Z :: mid ++ [idx]) with ((0%Z :: mid) ++ [idx]).
        apply Forall_app. split.
        -- eapply Forall_impl; [| exact Bm]. cbn beta. intros; lia.
        -- repeat constructor. lia.
      * change (0%Z :: mid ++ [idx]) with ((0%Z :: mid) ++ [idx]).
        apply Forall2_app; [exact Sm | repeat constructor; exact Eg].
  - rewrite Eloop, El. cbn [fst snd] in *.
    replace (threshold - 1 - 1)%Z with (threshold - 2)%Z in * by lia.
    rewrite bucketBound_last in Bm.
    exists mid, (sampled ++ [last]). repeat split.
    + exact Lm.
    + apply (increasing_snoc (l := 0%Z :: mid)); assumption.
    + change (0%Z :: mid ++ [(n - 1)%Z]) with ((0%Z :: mid) ++ [(n - 1)%Z]).
      apply Forall2_app; [exact Sm | repeat constructor; exact El].
Qed.

End Fixed.

(** Elements taken at increasing positions of a time-ordered input are
    time-ordered. *)
Lemma selects_timeOrdered (data : list TelemetryPoint) (idxs : list Z)
    (out : list TelemetryPoint) :
  timeOrdered data -> increasing idxs -> selects data idxs out ->
  timeOrdered out.
Proof.
  intros Hd Hi Hs. unfold timeOrdered, increasing, selects in *.
  induction Hs as [| i p idxs out Ep Hs IH]; [constructor |].
  inversion Hi as [| ? ? Hi' Hlt]; subst.
  constructor; [now apply IH |].
  clear IH Hi Hi'.
  induction Hs as [| j q idxs out Eq Hs IH]; [constructor |].
  inversion Hlt as [| ? ? Hij Hlt']; subst.
  constructor; [| now apply IH].
  apply get_Some in Ep as [Hip Ep], Eq as [Hjq Eq].
  assert (Hn : (Z.to_nat i < Z.to_nat j)%nat) by lia.
  clear - Hd Ep Eq Hn.
  revert Hd Ep Eq Hn. generalize (Z.to_nat i) (Z.to_nat j). clear i j.
  induction data as [| d data IH]; intros a b Hd Ep Eq Hn.
  - destruct a; discriminate.
  - inversion Hd as [| ? ? Hd' Hall]; subst.
    destruct b as [| b]; [lia |]. cbn [nth_error] in Eq.
    destruct a as [| a]; cbn [nth_error] in Ep.
    + injection Ep as <-. apply nth_error_In in Eq.
      rewrite Forall_forall in Hall. now apply Hall.
    + apply (IH a b); [assumption .. | lia].
Qed.

End LTTBFacts.

(** ** Min-max bucketing *)

Module MinMaxFacts.
Import Downsample JSFacts.

(** The scan keeps points of the bucket. *)
Lemma scanMinMax_In (l : list TelemetryPoint) :
  forall (mn mx : TelemetryPoint) (a b : Q),
  exists mn' mx' a' b',
    fold_left scanMinMax l (mn, mx, a, b) = (mn', mx', a', b')
    /\ (mn' = mn \/ In mn' l) /\ (mx' = mx \/ In mx' l).
Proof.
  induction l as [| p l IH]; intros mn mx a b; cbn [fold_left].
  - exists mn, mx, a, b. auto.
  - unfold scanMinMax at 2.
    destruct (Qltb (channelSum p) a); destruct (Qltb b (channelSum p));
      match goal with
      | |- context [fold_left scanMinMax l (?m1, ?m2, ?v1, ?v2)] =>
          destruct (IH m1 m2 v1 v2) as [mn' [mx' [a' [b' [E [H1 H2]]]]]]
      end;
      exists mn', mx', a', b'; (split; [exact E |]); cbn [In];
      intuition (subst; auto).
Qed.

(** When no sum differs from the two running values the scan changes
    nothing. *)
Lemma scanMinMax_constant (l : list TelemetryPoint) (mn mx : TelemetryPoint)
    (a b : Q) :
  Forall (fun q => channelSum q == a /\ channelSum q == b) l ->
  fold_left scanMinMax l (mn, mx, a, b) = (mn, mx, a, b).
Proof.
  induction 1 as [| p l [Ha Hb] _ IH]; cbn [fold_left]; [reflexivity |].
  unfold scanMinMax at 2. unfold Qltb.
  assert (E1 : Qle_bool a (channelSum p) = true)
    by (apply Qle_bool_iff; rewrite Ha; apply Qle_refl).
  assert (E2 : Qle_bool (channelSum p) b = true)
    by (apply Qle_bool_iff; rewrite Hb; apply Qle_refl).
  rewrite E1, E2. cbn [negb]. exact IH.
Qed.

(** A non-empty bucket contributes one or two of its own points, in time
    order. *)
Lemma emitBucket_nonempty (bucket : list TelemetryPoint) :
  bucket <> [] ->
  exists out,
    emitBucket bucket = Some out
    /\ (1 <= length out <= 2)%nat
    /\ incl out bucket
    /\ timeOrdered out.
Proof.
  destruct bucket as [| b0 [| b1 rest]]; [congruence | |]; intros _.
  - exists [b0]. repeat split; cbn [length]; try lia.
    + apply incl_refl.
    + repeat constructor.
  - unfold emitBucket.
    destruct (scanMinMax_In (b0 :: b1 :: rest) b0 b0
                (channelSum b0) (channelSum b0))
      as [mn [mx [a [b [E [Hmn Hmx]]]]]].
    rewrite E.
    assert (Imn : In mn (b0 :: b1 :: rest))
      by (destruct Hmn as [-> | H]; [now left | exact H]).
    assert (Imx : In mx (b0 :: b1 :: rest))
      by (destruct Hmx as [-> | H]; [now left | exact H]).
    unfold Qltb. destruct (Qle_bool (t mx) (t mn)) eqn:C; cbn [negb].
    + exists [mx; mn]. repeat split; cbn [length]; try lia.
      * intros x [<- | [<- | []]]; assumption.
      * apply Qle_bool_iff in C. repeat constructor. exact C.
    + exists [mn; mx]. repeat split; cbn [length]; try lia.
      * intros x [<- | [<- | []]]; assumption.
      * assert (Hlt : t mn < t mx).
        { apply Qnot_le_lt. intros H. apply Qle_bool_iff in H. congruence. }
        repeat constructor. apply Qlt_le_weak, Hlt.
Qed.

(** A bucket of two or more points whose sums are all equal contributes
    its first point twice. *)
Lemma emitBucket_constant (b0 b1 : TelemetryPoint)
    (rest : list TelemetryPoint) :
  Forall (fun q => channelSum q == channelSum b0) (b0 :: b1 :: rest) ->
  emitBucket (b0 :: b1 :: rest) = Some [b0; b0].
Proof.
  intros H. unfold emitBucket.
  rewrite scanMinMax_constant.
  - unfold Qltb.
    assert (E : Qle_bool (t b0) (t b0) = true)
      by (apply Qle_bool_iff, Qle_refl).
    rewrite E. reflexivity.
  - eapply Forall_impl; [| exact H]. cbn beta. intros q Hq. now split.
Qed.

Lemma stronglySorted_app_inv {A : Type} (R : A -> A -> Prop) (l1 l2 : list A) :
  StronglySorted R (l1 ++ l2) ->
  StronglySorted R l1 /\ StronglySorted R l2
  /\ (forall x y, In x l1 -> In y l2 -> R x y).
Proof.
  induction l1 as [| a l1 IH]; cbn [app]; intros H.
  - repeat split; [constructor | exact H | intros x y []].
  - inversion H as [| ? ? H' Ha]; subst.
    destruct (IH H') as [S1 [S2 C]].
    apply Forall_app in Ha as [Ha1 Ha2].
    repeat split; [now constructor | exact S2 |].
    intros x y [<- | Hx] Hy; [| now apply C].
    rewrite Forall_forall in Ha2. now apply Ha2.
Qed.

Lemma stronglySorted_app {A : Type} (R : A -> A -> Prop) (l1 l2 : list A) :
  StronglySorted R l1 -> StronglySorted R l2 ->
  (forall x y, In x l1 -> In y l2 -> R x y) ->
  StronglySorted R (l1 ++ l2).
Proof.
  induction 1 as [| a l1 H1 IH Ha]; cbn [app]; intros H2 C; [exact H2 |].
  constructor.
  - apply IH; [exact H2 |]. intros x y Hx. apply C. now right.
  - apply Forall_app. split; [exact Ha |].
    apply Forall_forall. intros y Hy. apply C; [now left | exact Hy].
Qed.

(** Picking, bucket by bucket, ordered points of a partition of an ordered
    sequence gives an ordered sequence. *)
Lemma concat_picks_sorted {A : Type} (R : A -> A -> Prop)
    (bs outs : list (list A)) :
  Forall2 (fun b o => incl o b /\ StronglySorted R o) bs outs ->
  StronglySorted R (concat bs) ->
  StronglySorted R (concat outs) /\ incl (concat outs) (concat bs).
Proof.
  induction 1 as [| b o bs outs [Hi Ho] _ IH]; cbn [concat]; intros Hs.
  - split; [constructor | apply incl_refl].
  - apply stronglySorted_app_inv in Hs as [_ [S2 C]].
    destruct (IH S2) as [IH1 IH2]. split.
    + apply stronglySorted_app; [exact Ho | exact IH1 |].
      intros x y Hx Hy. apply C; [now apply Hi | now apply IH2].
    + apply incl_app_app; assumption.
Qed.

Section Fixed.
Variable data : list TelemetryPoint.
Variable targetPoints : Z.
Hypothesis Hlong : (JS.len data > targetPoints)%Z.
Hypothesis Hbudget : (targetPoints > 0)%Z.

Abbreviation n := (JS.len data).
Abbreviation size := (minMaxBucketSize data targetPoints).

Lemma minMaxBucketSize_div : size = (- (- n / targetPoints))%Z.
Proof.
  unfold minMaxBucketSize, Qceiling. f_equal.
  rewrite Zdiv_Qdiv. apply Qfloor_comp.
  rewrite inject_Z_opp. unfold Qdiv. ring.
Qed.

(** The bucket size is the least integer whose multiple by the budget
    covers the input. *)
Lemma minMaxBucketSize_bounds :
  (n <= size * targetPoints)%Z /\ ((size - 1) * targetPoints < n)%Z
  /\ (2 <= size)%Z.
Proof.
  rewrite minMaxBucketSize_div.
  pose proof (Z.mul_div_le (- n) targetPoints ltac:(lia)) as H1.
  pose proof (Z.mul_succ_div_gt (- n) targetPoints ltac:(lia)) as H2.
  repeat split; nia.
Qed.

(** The buckets are non-empty and, put end to end, make up the input from
    the position where the loop stands. *)
Lemma bucketsFrom_partition (fuel : nat) : forall i : Z,
  (0 <= i)%Z -> (n - i <= Z.of_nat fuel)%Z ->
  concat (bucketsFrom data size fuel i) = skipn (Z.to_nat i) data
  /\ Forall (fun b => b <> []) (bucketsFrom data size fuel i)
  /\ (Z.of_nat (length (bucketsFrom data size fuel i)) * size
      <= Z.max 0 (n - i) + size - 1)%Z.
Proof.
  pose proof minMaxBucketSize_bounds as [_ [_ Hs]].
  induction fuel as [| fuel IH]; intros i Hi Hf.
  - cbn [bucketsFrom]. destruct (Z.ltb_spec i n); [lia |].
    cbn [concat length]. repeat split; [| constructor | lia].
    symmetry. apply skipn_all2. unfold JS.len in *. lia.
  - cbn [bucketsFrom]. destruct (Z.ltb_spec i n) as [Hin | Hin].
    + destruct (@slice_inside _ data i (Z.min (i + size) n)) as [Es Ls];
        [lia | lia |].
      destruct (IH (i + size)%Z) as [Ec [Hne Hcount]]; [lia | lia |].
      cbn [concat length]. rewrite Ec, Es. repeat split.
      * destruct (Z.le_gt_cases n (i + size)) as [Hend | Hmid].
        -- rewrite (skipn_all2 (n := Z.to_nat (i + size)))
             by (unfold JS.len in *; lia).
           rewrite app_nil_r. apply firstn_all2.
           rewrite length_skipn. unfold JS.len in *. lia.
        -- replace (Z.min (i + size) n - i)%Z with size by lia.
           replace (Z.to_nat (i + size))
             with (Z.to_nat size + Z.to_nat i)%nat by lia.
           rewrite <- skipn_skipn. apply firstn_skipn.
      * constructor; [| exact Hne].
        rewrite <- Es. intros E. rewrite E in Ls. unfold JS.len in *.
        cbn [length] in Ls. lia.
      * destruct (Z.le_gt_cases n (i + size)) as [Hend | Hmid]; [| lia].
        assert (E0 : bucketsFrom data size fuel (i + size) = []).
        { destruct fuel; cbn [bucketsFrom];
            destruct (Z.ltb_spec (i + size) n); (lia || reflexivity). }
        rewrite E0. cbn [length]. lia.
    + cbn [concat length]. repeat split; [| constructor | lia].
      symmetry. apply skipn_all2. unfold JS.len in *. lia.
Qed.

(** The loop pushes, bucket after bucket, what [emitBucket] gives. *)
Lemma minMaxLoop_buckets (fuel : nat) : forall (i : Z) acc,
  (0 <= i)%Z -> (n - i <= Z.of_nat fuel)%Z ->
  exists outs,
    Forall2 (fun b o => emitBucket b = Some o)
            (bucketsFrom data size fuel i) outs
    /\ minMaxLoop data targetPoints fuel i acc = Some (acc ++ concat outs).
Proof.
  induction fuel as [| fuel IH]; intros i acc Hi Hf.
  - cbn [bucketsFrom minMaxLoop]. destruct (Z.ltb_spec i n); [lia |].
    exists []. split; [constructor | now rewrite app_nil_r].
  - pose proof (bucketsFrom_partition (S fuel) Hi Hf) as [_ [Hne _]].
    revert Hne. cbn [bucketsFrom minMaxLoop].
    destruct (Z.ltb_spec i n) as [Hin | Hin]; intros Hne.
    + inversion Hne as [| ? ? Hb _]; subst.
      destruct (emitBucket_nonempty Hb) as [o [Eo _]].
      rewrite Eo.
      pose proof minMaxBucketSize_bounds as [_ [_ Hs]].
      destruct (IH (i + size)%Z (acc ++ o)) as [outs [F E]]; [lia | lia |].
      exists (o :: outs). split; [constructor; assumption |].
      rewrite E. cbn [concat]. now rewrite app_assoc.
    + exists []. split; [constructor | now rewrite app_nil_r].
Qed.

(** What [downsampleMinMax] returns on an input longer than the budget. *)
Lemma minmax_structure :
  exists outs out,
    downsampleMinMax data targetPoints = Some out
    /\ out = concat outs
    /\ Forall2 (fun b o => emitBucket b = Some o)
               (buckets data targetPoints) outs
    /\ concat (buckets data targetPoints) = data
    /\ (JS.len (buckets data targetPoints) <= targetPoints)%Z.
Proof.
  unfold downsampleMinMax, buckets.
  destruct (Z.leb_spec n targetPoints); [lia |].
  destruct (Z.eqb_spec targetPoints 0); [lia |].
  destruct (@minMaxLoop_buckets (length data) 0 []) as [outs [F E]];
    [lia | unfold JS.len; lia |].
  destruct (@bucketsFrom_partition (length data) 0) as [Ec [_ Hc]];
    [lia | unfold JS.len; lia |].
  exists outs, (concat outs). repeat split; try assumption.
  pose proof minMaxBucketSize_bounds as [H1 [H2 H3]].
  unfold JS.len at 1. nia.
Qed.

End Fixed.
End MinMaxFacts.

(** ** Guarantees of the downsampling engine *)

Module DownsampleSpec.
Import Downsample JSFacts LTTBFacts MinMaxFacts.

(** The output of LTTB written out: first element, interior picks, last
    element. *)
Lemma lttb_shape (data : list TelemetryPoint) (threshold : Z) :
  (JS.len data > threshold)%Z -> (threshold > 2)%Z ->
  exists (mid : list Z) (first last : TelemetryPoint)
         (picks : list TelemetryPoint),
    downsampleLTTB data threshold = Some (first :: picks ++ [last])
    /\ JS.get data 0 = Some first
    /\ JS.get data (JS.len data - 1) = Some last
    /\ selects data mid picks
    /\ JS.len mid = (threshold - 2)%Z
    /\ increasing (0%Z :: mid ++ [(JS.len data - 1)%Z])
    /\ selects data (0%Z :: mid ++ [(JS.len data - 1)%Z])
               (first :: picks ++ [last]).
Proof.
  intros H1 H2.
  destruct (@lttb_structure data threshold H1 H2) as [mid [out [E [L [I S]]]]].
  pose proof S as S0. unfold selects in S.
  inversion S as [| ? first ? out' Ef S']; subst.
  apply Forall2_app_inv_l in S' as [picks [tl [Sp [Sl ->]]]].
  inversion Sl as [| ? last ? tl' El Sn]; subst. inversion Sn; subst.
  exists mid, first, last, picks. repeat split; assumption.
Qed.

Lemma selects_length (data : list TelemetryPoint) (idxs : list Z)
    (out : list TelemetryPoint) :
  selects data idxs out -> JS.len out = JS.len idxs.
Proof.
  intros H. unfold JS.len. now rewrite (Forall2_length H).
Qed.

Lemma selects_incl (data : list TelemetryPoint) (idxs : list Z)
    (out : list TelemetryPoint) :
  selects data idxs out -> incl out data.
Proof.
  induction 1 as [| i p idxs out E _ IH]; intros x; cbn [In]; [tauto |].
  intros [<- | Hx]; [eapply get_In, E | now apply IH].
Qed.

Lemma interior_length (A : Type) (x y : A) (l : list A) :
  JS.len (x :: l ++ [y]) = (JS.len l + 2)%Z.
Proof. unfold JS.len. cbn [length]. rewrite length_app. cbn [length]. lia. Qed.

(** C9: on an input longer than a budget above two, LTTB returns exactly
    [budget] points: the first input point, one point of the input for
    each of the [budget - 2] iterations, and the last input point. *)
Theorem lttb_exactly_budget (data : list TelemetryPoint) (budget : Z)
    (Hlong : (JS.len data > budget)%Z) (Hbudget : (budget > 2)%Z) :
  exists (first last : TelemetryPoint) (picks : list TelemetryPoint),
    downsampleLTTB data budget = Some (first :: picks ++ [last])
    /\ JS.len (first :: picks ++ [last]) = budget
    /\ JS.len picks = (budget - 2)%Z
    /\ JS.get data 0 = Some first
    /\ JS.get data (JS.len data - 1) = Some last
    /\ incl picks data.
Proof.
  destruct (@lttb_shape data budget Hlong Hbudget)
    as [mid [first [last [picks [E [Ef [El [Sp [L _]]]]]]]]].
  exists first, last, picks.
  pose proof (selects_length Sp) as Lp.
  repeat split; try assumption.
  - rewrite interior_length. lia.
  - lia.
  - eapply selects_incl, Sp.
Qed.

Lemma lttb_exactly_budget_witness :
  (JS.len tenPoints > 5)%Z /\ (5 > 2)%Z /\
  exists (first last : TelemetryPoint) (picks : list TelemetryPoint),
    downsampleLTTB tenPoints 5 = Some (first :: picks ++ [last])
    /\ JS.len (first :: picks ++ [last]) = 5%Z
    /\ JS.len picks = (5 - 2)%Z
    /\ JS.get tenPoints 0 = Some first
    /\ JS.get tenPoints (JS.len tenPoints - 1) = Some last
    /\ incl picks tenPoints.
Proof.
  assert (H1 : (JS.len tenPoints > 5)%Z) by (vm_compute; reflexivity).
  assert (H2 : (5 > 2)%Z) by lia.
  split; [exact H1 |]. split; [exact H2 |].
  exact (@lttb_exactly_budget tenPoints 5 H1 H2).
Defined.

Lemma concat_length_bound (A B : Type) (R : A -> list B -> Prop)
    (bs : list A) (outs : list (list B)) :
  Forall2 (fun b o => R b o /\ (length o <= 2)%nat) bs outs ->
  (JS.len (concat outs) <= 2 * JS.len bs)%Z.
Proof.
  unfold JS.len.
  induction 1 as [| b o bs outs [_ Ho] _ IH]; cbn [concat length]; [lia |].
  rewrite length_app. lia.
Qed.

(** What min-max bucketing guarantees on an input longer than the budget. *)
Lemma minmax_guarantees (data : list TelemetryPoint) (targetPoints : Z) :
  (JS.len data > targetPoints)%Z -> (targetPoints > 0)%Z ->
  exists out,
    downsampleMinMax data targetPoints = Some out
    /\ incl out data
    /\ (timeOrdered data -> timeOrdered out)
    /\ (JS.len out <= 2 * JS.len (buckets data targetPoints))%Z
    /\ (JS.len (buckets data targetPoints) <= targetPoints)%Z.
Proof.
  intros H1 H2.
  destruct (@minmax_structure data targetPoints H1 H2)
    as [outs [out [E [-> [F [P C]]]]]].
  assert (G : Forall2 (fun b o => (incl o b /\ timeOrdered o)
                                  /\ (length o <= 2)%nat)
                      (buckets data targetPoints) outs).
  { eapply Forall2_impl; [| exact F]. cbn beta. intros b o Eo.
    assert (Hb : b <> []) by (intros ->; discriminate).
    destruct (emitBucket_nonempty Hb) as [o' [Eo' [L [I T]]]].
    assert (o' = o) by congruence. subst o'. repeat split; (lia || assumption). }
  exists (concat outs). repeat split.
  - exact E.
  - apply (incl_tran (m := concat (buckets data targetPoints)));
      [| rewrite P; apply incl_refl].
    eapply (@concat_picks_sorted _ (fun _ _ => True)).
    + eapply Forall2_impl; [| exact G]. cbn beta.
      intros b o [[I _] _]. split; [exact I |].
      clear. induction o; constructor; [assumption |].
      apply Forall_forall. auto.
    + clear. induction (concat (buckets data targetPoints));
        constructor; [assumption |]. apply Forall_forall. auto.
  - intros T. rewrite <- P in T.
    eapply (@concat_picks_sorted _ (fun p q => t p <= t q)); [| exact T].
    eapply Forall2_impl; [| exact G]. cbn beta. intros b o [H _]. exact H.
  - eapply concat_length_bound, G.
  - exact C.
Qed.

(** C2, as stated, fails for min-max bucketing: on six points with budget
    three the output has six entries, more than [2 * ceil(6 / 3) = 4], and
    the last input point is not among them. *)
Lemma minmax_breaks_endpoint_and_bound :
  (JS.len sixPoints > 3)%Z /\ (3 > 2)%Z /\
  exists out last,
    downsampleMinMax sixPoints 3 = Some out
    /\ JS.get sixPoints (JS.len sixPoints - 1) = Some last
    /\ ~ In last out
    /\ (JS.len out
        > 2 * Qceiling (inject_Z (JS.len sixPoints) / inject_Z 3))%Z.
Proof.
  split; [reflexivity |]. split; [reflexivity |].
  exists [sample 0 1; sample 1 2; sample 2 3; sample 3 4;
          sample 4 5; sample 4 5], (sample 5 5).
  split; [vm_compute; reflexivity |]. split; [reflexivity |].
  split; [| reflexivity].
  cbn [In]. intros H.
  repeat (destruct H as [H | H]; [discriminate H |]). exact H.
Qed.

(** C2, amended: for an input longer than a budget above two, LTTB returns
    the exact first and last input elements around interior picks taken at
    strictly increasing positions, so it preserves the input order, and it
    returns [budget] points (ten points with budget five give five points
    with both ends); min-max bucketing returns input points only, in time
    order when the input is, at most two per bucket and hence at most
    [2 * budget] points, the number of buckets being at most [budget]; the
    first and last input elements need not be among them. *)
Theorem downsample_order_and_bounds (data : list TelemetryPoint) (budget : Z)
    (Hlong : (JS.len data > budget)%Z) (Hbudget : (budget > 2)%Z) :
  (exists (first last : TelemetryPoint) (picks : list TelemetryPoint)
          (mid : list Z),
      downsampleLTTB data budget = Some (first :: picks ++ [last])
      /\ JS.get data 0 = Some first
      /\ JS.get data (JS.len data - 1) = Some last
      /\ increasing (0%Z :: mid ++ [(JS.len data - 1)%Z])
      /\ selects data (0%Z :: mid ++ [(JS.len data - 1)%Z])
                 (first :: picks ++ [last])
      /\ (timeOrdered data -> timeOrdered (first :: picks ++ [last]))
      /\ (JS.len (first :: picks ++ [last]) <= budget)%Z
      /\ (JS.len data = 10%Z -> budget = 5%Z ->
          JS.len (first :: picks ++ [last]) = 5%Z))
  /\ (exists out,
        downsampleMinMax data budget = Some out
        /\ incl out data
        /\ (timeOrdered data -> timeOrdered out)
        /\ (JS.len out <= 2 * JS.len (buckets data budget))%Z
        /\ (JS.len (buckets data budget) <= budget)%Z
        /\ (JS.len out <= 2 * budget)%Z).
Proof.
  split.
  - destruct (@lttb_shape data budget Hlong Hbudget)
      as [mid [first [last [picks [E [Ef [El [Sp [L [I S]]]]]]]]]].
    exists first, last, picks, mid.
    pose proof (selects_length Sp) as Lp.
    assert (Lo : JS.len (first :: picks ++ [last]) = budget)
      by (rewrite interior_length; lia).
    repeat split; try assumption.
    + intros T. eapply selects_timeOrdered; eassumption.
    + lia.
    + intros _ Hb. lia.
  - destruct (@minmax_guarantees data budget Hlong ltac:(lia))
      as [out [E [I [T [L C]]]]].
    exists out. repeat split; try assumption. lia.
Qed.

Lemma downsample_order_and_bounds_witness :
  (JS.len tenPoints > 5)%Z /\ (5 > 2)%Z /\
  (exists out, downsampleLTTB tenPoints 5 = Some out /\ JS.len out = 5%Z) /\
  (exists out, downsampleMinMax tenPoints 5 = Some out
               /\ (JS.len out <= 2 * 5)%Z).
Proof.
  assert (H1 : (JS.len tenPoints > 5)%Z) by (vm_compute; reflexivity).
  assert (H2 : (5 > 2)%Z) by lia.
  split; [exact H1 |]. split; [exact H2 |].
  destruct (@downsample_order_and_bounds tenPoints 5 H1 H2)
    as [[first [last [picks [mid [E [_ [_ [_ [_ [_ [_ L]]]]]]]]]]]
        [out [E' [_ [_ [_ [_ L']]]]]]].
  split.
  - exists (first :: picks ++ [last]). split; [exact E |].
    apply L; reflexivity.
  - exists out. split; [exact E' | exact L'].
Defined.

(** C10: a bucket of [downsampleMinMax] with at least two elements in
    which one point both minimises and maximises the channel sum
    contributes its first point twice in a row, so the output repeats an
    input point. *)
Theorem minmax_repeats_point_of_flat_bucket (data : list TelemetryPoint)
    (targetPoints : Z) (b0 b1 : TelemetryPoint) (rest : list TelemetryPoint)
    (Hlong : (JS.len data > targetPoints)%Z)
    (Hbudget : (targetPoints > 0)%Z)
    (Hbucket : In (b0 :: b1 :: rest) (buckets data targetPoints))
    (Hflat : exists p, In p (b0 :: b1 :: rest) /\
               forall q, In q (b0 :: b1 :: rest) ->
                         channelSum p <= channelSum q
                         /\ channelSum q <= channelSum p) :
  emitBucket (b0 :: b1 :: rest) = Some [b0; b0]
  /\ exists out pre post,
       downsampleMinMax data targetPoints = Some out
       /\ out = pre ++ [b0; b0] ++ post
       /\ ~ NoDup out.
Proof.
  assert (Eb : emitBucket (b0 :: b1 :: rest) = Some [b0; b0]).
  { apply emitBucket_constant. destruct Hflat as [p [_ Hp]].
    assert (E0 : channelSum b0 == channelSum p)
      by (destruct (Hp b0 (or_introl eq_refl)); now apply Qle_antisym).
    apply Forall_forall. intros q Hq. rewrite E0.
    destruct (Hp q Hq). now apply Qle_antisym. }
  split; [exact Eb |].
  destruct (@minmax_structure data targetPoints Hlong Hbudget)
    as [outs [out [E [-> [F _]]]]].
  apply in_split in Hbucket as [B1 [B2 EB]]. rewrite EB in F.
  apply Forall2_app_inv_l in F as [O1 [O2 [_ [F2 ->]]]].
  inversion F2 as [| ? o ? O3 Eo _]; subst.
  assert (o = [b0; b0]) by congruence. subst o.
  exists (concat (O1 ++ [b0; b0] :: O3)), (concat O1), (concat O3).
  assert (Ec : concat (O1 ++ [b0; b0] :: O3)
               = concat O1 ++ [b0; b0] ++ concat O3)
    by (rewrite concat_app; reflexivity).
  repeat split; [exact E | exact Ec |].
  rewrite Ec. intros N. cbn [app] in N.
  apply NoDup_remove_2 in N. apply N, in_or_app. right. now left.
Qed.

Lemma minmax_repeats_point_of_flat_bucket_witness :
  exists out pre post,
    downsampleMinMax sixPoints 3 = Some out
    /\ out = pre ++ [sample 4 5; sample 4 5] ++ post
    /\ ~ NoDup out.
Proof.
  refine (proj2 (@minmax_repeats_point_of_flat_bucket sixPoints 3
                   (sample 4 5) (sample 5 5) [] _ _ _ _)).
  - vm_compute; reflexivity.
  - lia.
  - vm_compute. right. right. left. reflexivity.
  - exists (sample 4 5). split; [now left |].
    intros q [<- | [<- | []]]; split; vm_compute; discriminate.
Defined.

End DownsampleSpec.

(** ** Viewport controller *)

Module ViewportFacts.
Import Viewport.

Lemma Qltb_true (a b : Q) : Qltb a b = true <-> a < b.
Proof.
  unfold Qltb. rewrite negb_true_iff. split.
  - intros H. apply Qnot_le_lt. intros L. apply Qle_bool_iff in L. congruence.
  - intros H. destruct (Qle_bool b a) eqn:E; [| reflexivity].
    apply Qle_bool_iff in E. exfalso. exact (Qlt_not_le _ _ H E).
Qed.

Lemma Qltb_false (a b : Q) : Qltb a b = false <-> b <= a.
Proof.
  unfold Qltb. rewrite negb_false_iff. apply Qle_bool_iff.
Qed.



(** *** Pan *)



(** *** Zoom *)





Lemma invalidRange_false (w : Q * Q) :
  Clamped.invalidRange w = false <-> fst w < snd w.
Proof.
  destruct w as [a b]. unfold Clamped.invalidRange, isNaN. cbn [fst snd].
  rewrite !orb_false_r. rewrite <- Qltb_true. unfold Qltb.
  destruct (Qle_bool b a); cbn [negb]; intuition congruence.
Qed.

End ViewportFacts.

Module ViewportSpec.
Import Viewport ViewportFacts.





(** *** Validity is kept by every handler *)









(** A wheel event on a buffer whose samples share one timestamp is skipped:
    the clamped window collapses to [minT, maxT]. *)
Lemma clamped_wheel_skips_single_timestamp :
  let st := mkView (Some (mkDomain 10 20 0 100)) true false None in
  Clamped.handleWheel false [mkPoint 7 0 0 0] (Some (mkRect 0 800)) 400 1 st
  = setFollowTail false st.
Proof. vm_compute. reflexivity. Qed.

(** The clamped dashboard runs the initialisation whenever the length of
    the buffer has changed and the buffer is not empty, whatever the
    current domain is. *)
Lemma clamped_effect_fires (prevLength : Z) (d0 : TelemetryPoint)
    (rest : list TelemetryPoint) (st : ViewState) :
  JS.len (d0 :: rest) <> prevLength ->
  chartDomain (Clamped.afterRender prevLength (d0 :: rest) st)
  = Some (initialDomain (followTail st) d0 rest).
Proof.
  intros H. unfold Clamped.afterRender.
  destruct (Z.eqb_spec (JS.len (d0 :: rest)) prevLength); [contradiction |].
  reflexivity.
Qed.

(** The plain dashboard leaves a domain that is set alone. *)
Lemma plain_effect_guarded (data : list TelemetryPoint) (st : ViewState)
    (d : ChartDomain) :
  chartDomain st = Some d -> Plain.domainEffect data st = st.
Proof.
  intros H. unfold Plain.domainEffect. rewrite H. now destruct data.
Qed.

(** C7 fails on the clamped dashboard: with the domain already set to
    [2, 4] by the user and follow-tail off, the arrival of a third sample
    (buffer length 2 to 3) runs the initialisation again and replaces the
    domain by the full extent [0, 1/2]; the plain dashboard keeps the
    domain on the same input. *)
Theorem clamped_effect_reinitializes :
  let st := mkView (Some (mkDomain 2 4 0 100)) false false None in
  let data := [mkPoint 0 1 1 1; mkPoint (1 # 4) 1 1 1; mkPoint (1 # 2) 1 1 1] in
  chartDomain (Clamped.afterRender 2 data st)
  = Some (mkDomain 0 (1 # 2) 0 100)
  /\ chartDomain (Clamped.afterRender 2 data st) <> chartDomain st
  /\ chartDomain (Plain.domainEffect data st) = chartDomain st.
Proof.
  cbv zeta. split; [vm_compute; reflexivity |].
  split; [vm_compute; discriminate | reflexivity].
Qed.

End ViewportSpec.

(** ** Synthetic generator *)

Module SyntheticSpec.
Import Synthetic ViewportFacts.

(** A draw in [0, 1) scaled by [w > 0] gives a noise term in
    [-w/2, w/2). *)
Lemma noise_range (u w : Q) :
  0 <= u -> u < 1 -> 0 < w ->
  - ((1 # 2) * w) <= noise u w /\ noise u w < (1 # 2) * w.
Proof.
  intros H0 H1 Hw. unfold noise.
  assert (A : 0 <= u * w)
    by (apply Qmult_le_0_compat; [exact H0 | now apply Qlt_le_weak]).
  assert (B : 0 < (1 - u) * w).
  { apply Qmult_lt_0_compat; [| exact Hw].
    apply (Qplus_lt_l _ _ u). ring_simplify. exact H1. }
  split; lra.
Qed.

(** C8, as stated, fails on the noise: the speed noise
    [(Math.random() - 0.5) * 5] is -2.5 at the lowest draw and never
    exceeds 2.5 in absolute value, so its half-width is 2.5 and not 5
    (likewise 5 and 4, not 10 and 8, for current and temperature). *)
Lemma noise_half_width_is_half_the_factor :
  noise 0 5 == - (5 # 2)
  /\ ~ (exists u, 0 <= u /\ u < 1 /\ (5 # 2) < Qabs (noise u 5))
  /\ ~ (exists u, 0 <= u /\ u < 1 /\ 5 < Qabs (noise u 10))
  /\ ~ (exists u, 0 <= u /\ u < 1 /\ 4 < Qabs (noise u 8)).
Proof.
  assert (G : forall w h, 0 < w -> h == (1 # 2) * w ->
                ~ (exists u, 0 <= u /\ u < 1 /\ h < Qabs (noise u w))).
  { intros w h Hw Eh [u [H0 [H1 H]]].
    destruct (noise_range H0 H1 Hw) as [L U].
    apply (Qlt_not_le _ _ H). rewrite Eh. apply Qabs_Qle_condition.
    split; [exact L | now apply Qlt_le_weak]. }
  split; [reflexivity |].
  repeat split; apply G; reflexivity.
Qed.

(** C8, amended: a tick while playing advances the simulated clock by
    [0.05 * r] and queues one sample stamped with the new clock whose
    channel values are [base + sin(clock * freq) * amplitude + noise]
    clamped at zero, with (base, freq, amplitude) equal to (30, 0.1, 15),
    (60, 0.15, 25), (50, 0.05, 20) and a noise term
    [(Math.random() - 0.5) * w] of full width [w] = 5, 10, 8, that is of
    half-width 2.5, 5, 4; a tick while paused changes nothing. *)
Theorem synthetic_tick (sin : Q -> Q) (rate : Q) (r : Draws) (st : GenState)
    (Hs : 0 <= uSpeed r /\ uSpeed r < 1)
    (Hc : 0 <= uCurrent r /\ uCurrent r < 1)
    (Ht : 0 <= uTemp r /\ uTemp r < 1) :
  let st' := generateMockData sin true rate r st in
  let clock := mockTime st' in
  clock == mockTime st + (5 # 100) * rate
  /\ (exists p nS nC nT,
        pending st' = pending st ++ [p]
        /\ t p = clock
        /\ speed p = Qmax 0 (30 + sin (clock * (1 # 10)) * 15 + nS)
        /\ current p = Qmax 0 (60 + sin (clock * (15 # 100)) * 25 + nC)
        /\ temp p = Qmax 0 (50 + sin (clock * (5 # 100)) * 20 + nT)
        /\ nS = (uSpeed r - (1 # 2)) * 5
        /\ nC = (uCurrent r - (1 # 2)) * 10
        /\ nT = (uTemp r - (1 # 2)) * 8
        /\ (- (5 # 2) <= nS /\ nS < 5 # 2)
        /\ (- (5) <= nC /\ nC < 5)
        /\ (- (4) <= nT /\ nT < 4)
        /\ 0 <= speed p /\ 0 <= current p /\ 0 <= temp p)
  /\ generateMockData sin false rate r st = st.
Proof.
  cbv zeta. unfold generateMockData. cbn [negb mockTime pending].
  split; [unfold deltaT, MOCK_DATA_INTERVAL; field |].
  split; [| reflexivity].
  destruct Hs as [Hs0 Hs1], Hc as [Hc0 Hc1], Ht as [Ht0 Ht1].
  eexists _, _, _, _. split; [reflexivity |].
  unfold mockPoint. cbn [t speed current temp].
  split; [reflexivity |].
  unfold baseSpeed, baseCurrent, baseTemp, noise.
  do 6 (split; [reflexivity |]).
  pose proof (@noise_range (uSpeed r) 5 Hs0 Hs1 ltac:(reflexivity)) as [A1 A2].
  pose proof (@noise_range (uCurrent r) 10 Hc0 Hc1 ltac:(reflexivity))
    as [B1 B2].
  pose proof (@noise_range (uTemp r) 8 Ht0 Ht1 ltac:(reflexivity)) as [C1 C2].
  unfold noise in *.
  repeat split; try apply Q.le_max_l; lra.
Qed.

Lemma synthetic_tick_witness :
  let st' := generateMockData (fun _ => 0) true 1
               (mkDraws (1 # 2) 0 (3 # 4)) (mkGen 0 []) in
  mockTime st' == 0 + (5 # 100) * 1.
Proof.
  cbv zeta.
  refine (proj1 (@synthetic_tick (fun _ => 0) 1 (mkDraws (1 # 2) 0 (3 # 4))
                   (mkGen 0 []) _ _ _));
    split; vm_compute; (reflexivity || discriminate).
Defined.

End SyntheticSpec.

(** ** More on the ingestion buffer *)

Module BufferMore.
Import Buffer BufferFacts.




End BufferMore.

(** ** The telemetry hook *)

Module HookFacts.
Import Hook.

Lemma mockPoints_length (h : Q) (rs : list Synthetic.Draws) : forall i : Z,
  length (mockPoints h i rs) = length rs.
Proof.
  induction rs as [| r rs IH]; intros i; cbn [mockPoints length];
    [| rewrite IH]; reflexivity.
Qed.

Lemma mockPoints_nth (h : Q) (rs : list Synthetic.Draws) :
  forall (i : Z) (k : nat) (p : TelemetryPoint),
  nth_error (mockPoints h i rs) k = Some p ->
  exists r,
    nth_error rs k = Some r
    /\ p = mkPoint (inject_Z (i + Z.of_nat k) / h) (2 + Synthetic.uSpeed r)
                   (5 + Synthetic.uCurrent r) (20 + Synthetic.uTemp r).
Proof.
  induction rs as [| r rs IH]; intros i k p; cbn [mockPoints].
  - destruct k; discriminate.
  - destruct k as [| k]; cbn [nth_error].
    + intros [= <-]. exists r. split; [reflexivity |].
      now rewrite Z.add_0_r.
    + intros E. destruct (IH _ _ _ E) as [r' [Er ->]].
      exists r'. split; [exact Er |].
      replace (i + 1 + Z.of_nat k)%Z with (i + Z.of_nat (S k))%Z by lia.
      reflexivity.
Qed.

Lemma div_lt_div (x y : Z) (h : Q) :
  (x < y)%Z -> 0 < h -> inject_Z x / h < inject_Z y / h.
Proof.
  intros Hxy Hh. unfold Qdiv.
  apply Qmult_lt_compat_r; [now apply Qinv_lt_0_compat |].
  rewrite <- Zlt_Qlt. exact Hxy.
Qed.

(** At a positive rate the mock samples are strictly ordered in time. *)
Lemma mockPoints_increasing (h : Q) (rs : list Synthetic.Draws) :
  0 < h -> forall i : Z,
  StronglySorted (fun p q => t p < t q) (mockPoints h i rs).
Proof.
  intros Hh. induction rs as [| r rs IH]; intros i; cbn [mockPoints];
    constructor; [apply IH |].
  apply Forall_forall. intros q Hq.
  apply In_nth_error in Hq as [k Ek].
  apply mockPoints_nth in Ek as [r' [_ ->]]. cbn [t].
  apply div_lt_div; [lia | exact Hh].
Qed.

Lemma stronglySorted_skipn {A : Type} (R : A -> A -> Prop) (m : nat)
    (l : list A) :
  StronglySorted R l -> StronglySorted R (skipn m l).
Proof.
  intros H. rewrite <- (firstn_skipn m l) in H.
  now apply MinMaxFacts.stronglySorted_app_inv in H as [_ [H _]].
Qed.

(** What the interval callbacks do to the hook: they push the mock samples
    numbered from the current index, at the rate captured by [play]. *)
Lemma ticks_pushes (rs : list Synthetic.Draws) :
  forall (st : HookState) (h : Q),
  timerRef st = Some h ->
  ticks rs st
  = mkHook (playing st) (series st)
           (Buffer.pushPoints (data st) (mockPoints h (indexRef st) rs))
           (hz st) (Some h) (indexRef st + JS.len rs).
Proof.
  unfold ticks, Buffer.pushPoints, JS.len.
  induction rs as [| r rs IH]; intros st h Ht; cbn [fold_left mockPoints].
  - cbn [length]. rewrite Z.add_0_r, <- Ht. now destruct st.
  - rewrite (IH (tick r st) h).
    + unfold tick. rewrite Ht. unfold pushPoint.
      cbn [playing series data hz timerRef indexRef length].
      f_equal. lia.
    + unfold tick. rewrite Ht. unfold pushPoint. cbn [timerRef]. exact Ht.
Qed.

Lemma ticks_after_clear (rs : list Synthetic.Draws) (s : HookState) (h : Q) :
  timerRef s = Some h ->
  data (ticks rs (clear s))
  = Buffer.lastn (Z.to_nat 14400) (mockPoints h 0 rs).
Proof.
  intros Hs. rewrite (@ticks_pushes rs (clear s) h) by exact Hs.
  cbn [data clear indexRef].
  apply (BufferFacts.pushPoints_from_empty (mockPoints h 0 rs)).
Qed.

(** After [clear], the samples produced while the interval runs carry the
    timestamps [0/h, 1/h, 2/h, ...] for the rate [h] in force when [play]
    was called: the buffer holds the most recent 14,400 of them, strictly
    ordered in time, and a later [setHz] does not change them. *)
Theorem hook_timestamps (st : HookState) (h : Q) (rs : list Synthetic.Draws)
    (Htimer : timerRef st = Some h) (Hrate : 0 < h) :
  let st' := ticks rs (clear st) in
  indexRef st' = JS.len rs
  /\ data st' = Buffer.lastn (Z.to_nat 14400) (mockPoints h 0 rs)
  /\ StronglySorted (fun p q => t p < t q) (data st')
  /\ (forall h', data (ticks rs (clear (setHz h' st))) = data st').
Proof.
  cbv zeta.
  pose proof (fun s => @ticks_after_clear rs s h) as E.
  split; [| split; [| split]].
  - rewrite (@ticks_pushes rs (clear st) h) by exact Htimer.
    cbn [indexRef clear]. lia.
  - now apply E.
  - rewrite E by exact Htimer. apply stronglySorted_skipn.
    now apply mockPoints_increasing.
  - intros h'. rewrite !E; [reflexivity | exact Htimer | exact Htimer].
Qed.

Lemma hook_timestamps_witness :
  let st := play (initialHook 4) in
  let rs := [Synthetic.mkDraws 0 0 0; Synthetic.mkDraws (1 # 2) 0 0] in
  data (ticks rs (clear st))
  = Buffer.lastn (Z.to_nat 14400) (mockPoints 4 0 rs).
Proof.
  cbv zeta.
  refine (proj1 (proj2 (@hook_timestamps (play (initialHook 4)) 4
                          [Synthetic.mkDraws 0 0 0;
                           Synthetic.mkDraws (1 # 2) 0 0] _ _))).
  - reflexivity.
  - reflexivity.
Defined.

(** Toggling a series twice restores the flags, and a toggle changes the
    flag it names and no other. *)
Theorem toggleSeries_involution (key key' : Series.Key) (st : HookState) :
  toggleSeries key (toggleSeries key st) = st
  /\ Series.get key (series (toggleSeries key st))
     = negb (Series.get key (series st))
  /\ (key' <> key ->
      Series.get key' (series (toggleSeries key st))
      = Series.get key' (series st))
  /\ data (toggleSeries key st) = data st.
Proof.
  destruct st as [pl [a b c] d hz0 tm ix].
  unfold toggleSeries, Series.toggle. cbn [series playing data hz timerRef indexRef].
  repeat split.
  - destruct key; cbn [Series.speed Series.current Series.temp];
      now rewrite negb_involutive.
  - now destruct key.
  - intros Hk. destruct key, key'; try reflexivity; congruence.
Qed.

End HookFacts.

(** ** More on the viewport *)

Module ViewportMore.
Import Viewport ViewportFacts Controls.

Lemma fold_Qmin_le (l : list Q) : forall x : Q,
  fold_left Qmin l x <= x /\ Forall (fun y => fold_left Qmin l x <= y) l.
Proof.
  induction l as [| a l IH]; intros x; cbn [fold_left].
  - split; [apply Qle_refl | constructor].
  - destruct (IH (Qmin x a)) as [H1 H2]. split; [| constructor].
    + eapply Qle_trans; [exact H1 | apply Q.le_min_l].
    + eapply Qle_trans; [exact H1 | apply Q.le_min_r].
    + exact H2.
Qed.

Lemma fold_Qmax_ge (l : list Q) : forall x : Q,
  x <= fold_left Qmax l x /\ Forall (fun y => y <= fold_left Qmax l x) l.
Proof.
  induction l as [| a l IH]; intros x; cbn [fold_left].
  - split; [apply Qle_refl | constructor].
  - destruct (IH (Qmax x a)) as [H1 H2]. split; [| constructor].
    + eapply Qle_trans; [apply Q.le_max_l | exact H1].
    + eapply Qle_trans; [apply Q.le_max_r | exact H1].
    + exact H2.
Qed.

(** [minT] and [maxT] bound the timestamps of the buffer. *)
Lemma extent_bounds (d0 : TelemetryPoint) (rest : list TelemetryPoint)
    (d : TelemetryPoint) :
  In d (d0 :: rest) -> minT d0 rest <= t d /\ t d <= maxT d0 rest.
Proof.
  unfold minT, maxT.
  destruct (fold_Qmin_le (map t rest) (t d0)) as [L0 L].
  destruct (fold_Qmax_ge (map t rest) (t d0)) as [U0 U].
  rewrite Forall_forall in L, U.
  intros [<- | Hd]; [now split |].
  split; [apply L | apply U]; now apply in_map.
Qed.

Lemma extent_ordered (d0 : TelemetryPoint) (rest : list TelemetryPoint) :
  minT d0 rest <= maxT d0 rest.
Proof.
  destruct (@extent_bounds d0 rest d0 (or_introl eq_refl)) as [L U].
  eapply Qle_trans; eassumption.
Qed.

(** Whatever window the clamping receives, the window it returns lies in
    the data extent. *)
Lemma clampWindow_within (minT maxT s : Q) (w : Q * Q) :
  minT <= fst (Clamped.clampWindow minT maxT s w)
  /\ snd (Clamped.clampWindow minT maxT s w) <= maxT.
Proof.
  unfold Clamped.clampWindow.
  generalize (Clamped.clampHigh maxT s (Clamped.clampLow minT s w)).
  intros [a b]. unfold Clamped.clampCenter.
  assert (E1 : (minT + maxT) / 2 == (1 # 2) * (minT + maxT)) by field.
  assert (E2 : s / 2 == (1 # 2) * s) by field.
  destruct (Qltb a minT || Qltb maxT b) eqn:E.
  - destruct (Qltb ((minT + maxT) / 2 - s / 2) minT) eqn:E5;
      [apply Qltb_true in E5 | apply Qltb_false in E5];
      cbn [fst snd]; rewrite ?E1, ?E2 in *; split; lra.
  - apply orb_false_elim in E as [E3 E4].
    apply Qltb_false in E3, E4. cbn [fst snd]. now split.
Qed.

(** A wheel event of the clamped dashboard either leaves the domain as it
    is or sets a valid domain that lies inside the time extent
    [minT, maxT] of the buffer, with the y-range untouched; it always turns
    follow-tail off. *)
Theorem clamped_zoom_within_data (st : ViewState) (dom : ChartDomain)
    (d0 : TelemetryPoint) (rest : list TelemetryPoint) (rect : Rect)
    (clientX deltaY : Q)
    (Hdom : chartDomain st = Some dom) (Hvalid : validDomain dom)
    (Hwidth : ~ width rect == 0) :
  let st' :=
    Clamped.handleWheel false (d0 :: rest) (Some rect) clientX deltaY st in
  followTail st' = false
  /\ (chartDomain st' = Some dom
      \/ exists d,
           chartDomain st' = Some d
           /\ minT d0 rest <= xMin d /\ xMin d < xMax d
           /\ xMax d <= maxT d0 rest
           /\ yMin d = yMin dom /\ yMax d = yMax dom).
Proof.
  cbv zeta. unfold Clamped.handleWheel. rewrite Hdom.
  match goal with
  | |- context [Clamped.invalidRange ?w] =>
      destruct (Clamped.invalidRange w) eqn:V; [| set (win := w) in *]
  end.
  - cbn [setFollowTail followTail chartDomain]. split; [reflexivity |].
    now left.
  - cbn [setFollowTail setChartDomain followTail chartDomain].
    split; [reflexivity |]. right. eexists. split; [reflexivity |].
    cbn [withX xMin xMax yMin yMax].
    apply invalidRange_false in V.
    pose proof (clampWindow_within (minT d0 rest) (maxT d0 rest)
                  (Clamped.zoomSpan dom (minT d0 rest) (maxT d0 rest) deltaY)
                  (zoomWindow dom (mouseX rect clientX)
                     (Clamped.zoomSpan dom (minT d0 rest) (maxT d0 rest)
                        deltaY))) as [L U].
    fold win in L, U. repeat split; assumption.
Qed.

Lemma clamped_zoom_within_data_witness :
  let st := mkView (Some (mkDomain 0 100 0 100)) true false None in
  let st' :=
    Clamped.handleWheel false [mkPoint 0 0 0 0; mkPoint 100 0 0 0]
      (Some (mkRect 0 800)) 800 1 st in
  followTail st' = false.
Proof.
  cbv zeta.
  refine (proj1 (@clamped_zoom_within_data
                   (mkView (Some (mkDomain 0 100 0 100)) true false None)
                   (mkDomain 0 100 0 100) (mkPoint 0 0 0 0)
                   [mkPoint 100 0 0 0] (mkRect 0 800) 800 1 _ _ _)).
  - reflexivity.
  - vm_compute. reflexivity.
  - vm_compute. discriminate.
Defined.

Lemma clamped_pan_limits (dom : ChartDomain) (deltaX hz : Q)
    (data : list TelemetryPoint) :
  let maxTime := inject_Z (JS.len data - 1) / hz in
  let d := Clamped.pan dom deltaX data hz in
  xMax d <= maxTime
  /\ (span dom <= maxTime -> 0 <= xMin d)
  /\ (maxTime < span dom -> xMin d < 0).
Proof.
  cbv zeta. unfold Clamped.pan, span.
  set (maxTime := inject_Z (JS.len data - 1) / hz).
  destruct (Qltb (xMin dom - deltaX * (xMax dom - xMin dom)) 0) eqn:E1;
    [apply Qltb_true in E1 | apply Qltb_false in E1];
    match goal with
    | |- context [Qltb maxTime ?x] =>
        destruct (Qltb maxTime x) eqn:E2;
          [apply Qltb_true in E2 | apply Qltb_false in E2]
    end;
    cbn [withX xMin xMax]; repeat split; intros; lra.
Qed.



End ViewportMore.

(** ** Dashboard controls *)

Module ControlsFacts.
Import Viewport ViewportFacts Controls ViewportMore.

(** During a drag the domain depends on the current mouse position only,
    not on the positions visited before, and once the button is released
    mouse moves change nothing; this holds in both dashboards. *)
Theorem drag_depends_on_last_position (st : ViewState) (x : Q)
    (dom : ChartDomain) (rect : Rect) (rect' : option Rect)
    (c1 c2 hz hz' : Q) (data data' : list TelemetryPoint)
    (Hdrag : isDragging st = true) (Hstart : dragStart st = Some (x, dom)) :
  Clamped.handleMouseMove data hz (Some rect) c2
    (Clamped.handleMouseMove data' hz' rect' c1 st)
  = Clamped.handleMouseMove data hz (Some rect) c2 st
  /\ Plain.handleMouseMove (Some rect) c2 (Plain.handleMouseMove rect' c1 st)
     = Plain.handleMouseMove (Some rect) c2 st
  /\ Clamped.handleMouseMove data hz (Some rect) c2 (handleMouseUp st)
     = handleMouseUp st
  /\ Plain.handleMouseMove (Some rect) c2 (handleMouseUp st)
     = handleMouseUp st.
Proof.
  unfold Clamped.handleMouseMove, Plain.handleMouseMove, handleMouseUp.
  rewrite Hdrag, Hstart. cbn [negb isDragging dragStart].
  repeat split; destruct rect'; cbn [setChartDomain isDragging dragStart negb];
    try rewrite Hdrag; try rewrite Hstart; reflexivity.
Qed.

Lemma drag_depends_on_last_position_witness :
  let st := mkView (Some (mkDomain 10 20 0 100)) false true
                   (Some (100, mkDomain 10 20 0 100)) in
  Plain.handleMouseMove (Some (mkRect 0 800)) 300
    (Plain.handleMouseMove (Some (mkRect 0 800)) 700 st)
  = Plain.handleMouseMove (Some (mkRect 0 800)) 300 st.
Proof.
  cbv zeta.
  refine (proj1 (proj2 (@drag_depends_on_last_position
                          (mkView (Some (mkDomain 10 20 0 100)) false true
                                  (Some (100, mkDomain 10 20 0 100)))
                          100 (mkDomain 10 20 0 100) (mkRect 0 800)
                          (Some (mkRect 0 800)) 700 300 4 4 [] [] _ _)));
    reflexivity.
Defined.

Lemma filter_all {A : Type} (f : A -> bool) (l : list A) :
  (forall x, In x l -> f x = true) -> filter f l = l.
Proof.
  induction l as [| a l IH]; intros H; cbn [filter]; [reflexivity |].
  rewrite (H a (or_introl eq_refl)), IH; [reflexivity |].
  intros x Hx. apply H. now right.
Qed.

(** A double click brings every buffered sample into view: the charted
    samples are then the whole buffer. *)
Theorem double_click_shows_all (data : list TelemetryPoint) (st : ViewState) :
  chartData data (chartDomain (handleDoubleClick data st)) = data
  /\ (data <> [] -> followTail (handleDoubleClick data st) = true).
Proof.
  destruct data as [| d0 rest]; [split; [reflexivity | congruence] |].
  split; [| reflexivity].
  unfold handleDoubleClick, chartData. cbn [chartDomain xMin xMax].
  replace (JS.len (d0 :: rest) =? 0)%Z with false
    by (symmetry; apply Z.eqb_neq; unfold JS.len; cbn [length]; lia).
  cbn [isNaN orb]. apply filter_all. intros d Hd.
  destruct (extent_bounds Hd) as [L U].
  apply andb_true_intro. split; now apply Qle_bool_iff.
Qed.

(** Turning follow-tail on over a non-empty buffer sets the window to the
    last 30 seconds of data, cut at the first sample: it ends at [maxT],
    starts at [max(minT, maxT - 30)], and the charted samples are exactly
    those not older than [maxT - 30]; turning it off again keeps that
    window. *)
Theorem follow_tail_window (st : ViewState) (d0 : TelemetryPoint)
    (rest : list TelemetryPoint) (Hoff : followTail st = false) :
  let data := d0 :: rest in
  let st1 := toggleFollowTail data st in
  let st2 := toggleFollowTail data st1 in
  followTail st1 = true
  /\ (exists d,
        chartDomain st1 = Some d
        /\ xMax d = maxT d0 rest
        /\ minT d0 rest <= xMin d /\ xMin d <= xMax d
        /\ span d <= 30
        /\ (xMin d == minT d0 rest \/ span d == 30)
        /\ yMin d = 0 /\ yMax d = 25
        /\ forall p, In p (chartData data (chartDomain st1))
                     <-> In p data /\ maxT d0 rest - 30 <= t p)
  /\ followTail st2 = false
  /\ chartDomain st2 = chartDomain st1.
Proof.
  cbv zeta. unfold toggleFollowTail. rewrite Hoff.
  cbn [negb setFollowTail setChartDomain followTail chartDomain].
  pose proof (extent_ordered d0 rest) as Hord.
  set (lo := minT d0 rest) in *. set (hi := maxT d0 rest) in *.
  pose proof (Q.le_max_l lo (hi - 30)) as M1.
  pose proof (Q.le_max_r lo (hi - 30)) as M2.
  assert (M3 : Qmax lo (hi - 30) <= hi) by (apply Q.max_lub; lra).
  split; [reflexivity |]. split; [| split; reflexivity].
  eexists. split; [reflexivity |]. unfold span. cbn [xMin xMax yMin yMax].
  repeat split; try assumption; try lra.
  - destruct (Q.max_spec lo (hi - 30)) as [[_ E] | [_ E]]; rewrite E;
      [right; ring | left; reflexivity].
  - unfold chartData in H.
    replace (JS.len (d0 :: rest) =? 0)%Z with false in H
      by (symmetry; apply Z.eqb_neq; unfold JS.len; cbn [length]; lia).
    cbn [isNaN orb xMin xMax] in H. apply filter_In in H. tauto.
  - unfold chartData in H.
    replace (JS.len (d0 :: rest) =? 0)%Z with false in H
      by (symmetry; apply Z.eqb_neq; unfold JS.len; cbn [length]; lia).
    cbn [isNaN orb xMin xMax] in H. apply filter_In in H as [_ H].
    apply andb_prop in H as [H _]. apply Qle_bool_iff in H. lra.
  - intros [Hin Ht]. unfold chartData.
    replace (JS.len (d0 :: rest) =? 0)%Z with false
      by (symmetry; apply Z.eqb_neq; unfold JS.len; cbn [length]; lia).
    cbn [isNaN orb xMin xMax]. apply filter_In. split; [exact Hin |].
    destruct (extent_bounds Hin) as [L U]. fold lo in L. fold hi in U.
    apply andb_true_intro. split; apply Qle_bool_iff; [| exact U].
    apply Q.max_lub; assumption.
Qed.

Lemma follow_tail_window_witness :
  followTail
    (toggleFollowTail [mkPoint 0 0 0 0; mkPoint 100 0 0 0]
       (mkView None false false None)) = true.
Proof.
  refine (proj1 (@follow_tail_window (mkView None false false None)
                   (mkPoint 0 0 0 0) [mkPoint 100 0 0 0] _)).
  reflexivity.
Defined.

End ControlsFacts.

(** ** Playback: the hook together with the viewport *)

Module PlaybackFacts.
Import Viewport ViewportFacts Controls ViewportMore HookFacts.

(** The newest sample of the hook's buffer after [n >= 1] callbacks. *)
Lemma newest_sample (h : Q) (rs : list Synthetic.Draws) :
  (1 <= JS.len rs)%Z ->
  let buf := Buffer.lastn (Z.to_nat 14400) (Hook.mockPoints h 0 rs) in
  JS.len buf = Z.min (JS.len rs) 14400
  /\ exists newest,
       JS.get buf (JS.len buf - 1) = Some newest
       /\ t newest = inject_Z (JS.len rs - 1) / h.
Proof.
  intros Hn. cbv zeta.
  assert (L : JS.len (Buffer.lastn (Z.to_nat 14400) (Hook.mockPoints h 0 rs))
              = Z.min (JS.len rs) 14400).
  { unfold JS.len. rewrite BufferFacts.lastn_length, mockPoints_length. lia. }
  split; [exact L |].
  destruct (@JSFacts.get_in_range _
              (Buffer.lastn (Z.to_nat 14400) (Hook.mockPoints h 0 rs))
              (JS.len (Buffer.lastn (Z.to_nat 14400) (Hook.mockPoints h 0 rs))
               - 1)) as [p Ep]; [lia |].
  exists p. split; [exact Ep |].
  apply JSFacts.get_Some in Ep as [_ Ep]. rewrite L in Ep.
  unfold Buffer.lastn in Ep. rewrite nth_error_skipn in Ep.
  apply mockPoints_nth in Ep as [r [_ ->]]. cbn [t].
  f_equal. f_equal. rewrite mockPoints_length.
  unfold JS.len in *. lia.
Qed.

(** The upper limit of the clamped pan, [(data.length - 1) / hz], is the
    time of the newest sample as long as the hook has not evicted
    anything; once more than 14,400 samples have been produced the limit
    stays behind, and no pan can bring the newest sample into the
    window. *)
Theorem pan_limit_and_newest_sample (st : Hook.HookState) (h : Q)
    (rs : list Synthetic.Draws)
    (Htimer : Hook.timerRef st = Some h) (Hhz : Hook.hz st = h)
    (Hrate : 0 < h) (Hn : (1 <= JS.len rs)%Z) :
  let st' := Hook.ticks rs (Hook.clear st) in
  let maxTime := inject_Z (JS.len (Hook.data st') - 1) / Hook.hz st' in
  exists newest,
    JS.get (Hook.data st') (JS.len (Hook.data st') - 1) = Some newest
    /\ t newest = inject_Z (JS.len rs - 1) / h
    /\ ((JS.len rs <= 14400)%Z -> maxTime == t newest)
    /\ ((14400 < JS.len rs)%Z ->
        maxTime < t newest
        /\ forall dom deltaX,
             xMax (Clamped.pan dom deltaX (Hook.data st') (Hook.hz st'))
             < t newest).
Proof.
  cbv zeta.
  rewrite (@ticks_after_clear rs st h Htimer).
  assert (Eh : Hook.hz (Hook.ticks rs (Hook.clear st)) = h).
  { rewrite (@ticks_pushes rs (Hook.clear st) h) by exact Htimer.
    cbn [Hook.hz Hook.clear]. exact Hhz. }
  rewrite Eh.
  destruct (@newest_sample h rs Hn) as [L [newest [Eg Et]]].
  cbv zeta in L. exists newest. split; [exact Eg |]. split; [exact Et |].
  rewrite L, Et. split.
  - intros Hle. rewrite Z.min_l by lia. reflexivity.
  - intros Hgt. rewrite Z.min_r by lia.
    assert (Hlt : inject_Z (14400 - 1) / h < inject_Z (JS.len rs - 1) / h)
      by (apply div_lt_div; [lia | exact Hrate]).
    split; [exact Hlt |]. intros dom deltaX.
    pose proof (@clamped_pan_limits dom deltaX h
                  (Buffer.lastn (Z.to_nat 14400) (Hook.mockPoints h 0 rs)))
      as [B _].
    cbv zeta in B. rewrite L, Z.min_r in B by lia.
    eapply Qle_lt_trans; [exact B | exact Hlt].
Qed.

Lemma pan_limit_and_newest_sample_witness :
  let st := Hook.play (Hook.initialHook 4) in
  let rs := [Synthetic.mkDraws 0 0 0; Synthetic.mkDraws (1 # 2) 0 0] in
  exists newest,
    JS.get (Hook.data (Hook.ticks rs (Hook.clear st)))
           (JS.len (Hook.data (Hook.ticks rs (Hook.clear st))) - 1)
    = Some newest
    /\ t newest = inject_Z (JS.len rs - 1) / 4.
Proof.
  cbv zeta.
  destruct (@pan_limit_and_newest_sample
              (Hook.play (Hook.initialHook 4)) 4
              [Synthetic.mkDraws 0 0 0; Synthetic.mkDraws (1 # 2) 0 0])
    as [newest [Eg [Et _]]].
  - reflexivity.
  - reflexivity.
  - reflexivity.
  - vm_compute. discriminate.
  - exists newest. split; [exact Eg | exact Et].
Defined.

Lemma ticksPlain_keeps_domain (rs : list Synthetic.Draws) :
  forall (s : Hook.HookState * ViewState) (d : ChartDomain),
  chartDomain (snd s) = Some d ->
  snd (ticksPlain rs s) = snd s.
Proof.
  unfold ticksPlain.
  induction rs as [| r rs IH]; intros s d Hd; cbn [fold_left];
    [reflexivity |].
  assert (E : snd (tickPlain s r) = snd s).
  { unfold tickPlain. cbn [snd].
    eapply ViewportSpec.plain_effect_guarded, Hd. }
  rewrite (IH (tickPlain s r) d); [exact E | now rewrite E].
Qed.

(** Restarting playback of the plain dashboard on a non-empty buffer empties
    the buffer and unsets the domain; the first sample produced afterwards
    has time 0 and initialises the domain to the collapsed range [0, 0],
    and the guarded effect never widens it while further samples arrive. *)
Theorem plain_restart_collapses_domain (hs : Hook.HookState) (vs : ViewState)
    (r0 : Synthetic.Draws) (rs : list Synthetic.Draws)
    (Hstopped : Hook.playing hs = false)
    (Hdata : (JS.len (Hook.data hs) > 0)%Z)
    (Hrate : 0 < Hook.hz hs) :
  let s0 := togglePlaybackPlain hs vs in
  let s := ticksPlain (r0 :: rs) s0 in
  Hook.data (fst s0) = [] /\ chartDomain (snd s0) = None
  /\ Hook.playing (fst s0) = true
  /\ exists d,
       chartDomain (snd s) = Some d
       /\ xMin d == 0 /\ xMax d == 0 /\ ~ validDomain d.
Proof.
  cbv zeta.
  assert (E0 : togglePlaybackPlain hs vs
               = (Hook.mkHook true (Hook.series hs) [] (Hook.hz hs)
                              (Some (Hook.hz hs)) 0,
                  setChartDomain None vs)).
  { unfold togglePlaybackPlain. rewrite Hstopped.
    destruct (Z.gtb_spec (JS.len (Hook.data hs)) 0) as [_ | H]; [| lia].
    unfold Hook.play, Hook.clear.
    cbn [Hook.playing Hook.series Hook.data Hook.hz Hook.timerRef
         Hook.indexRef].
    rewrite Hstopped. reflexivity. }
  rewrite E0. cbn [fst snd Hook.data Hook.playing setChartDomain chartDomain].
  split; [reflexivity |]. split; [reflexivity |]. split; [reflexivity |].
  unfold ticksPlain. cbn [fold_left].
  match goal with
  | |- context [fold_left tickPlain rs ?s1] =>
      change (fold_left tickPlain rs s1) with (ticksPlain rs s1);
      set (s1' := s1)
  end.
  assert (E1 : snd s1'
               = setChartDomain
                   (Some (initialDomain (followTail vs)
                            (mkPoint (inject_Z 0 / Hook.hz hs)
                                     (2 + Synthetic.uSpeed r0)
                                     (5 + Synthetic.uCurrent r0)
                                     (20 + Synthetic.uTemp r0)) []))
                   (setChartDomain None vs)) by reflexivity.
  rewrite (@ticksPlain_keeps_domain rs s1' _ ltac:(rewrite E1; reflexivity)).
  rewrite E1. cbn [setChartDomain chartDomain].
  eexists. split; [reflexivity |].
  unfold initialDomain, minT, maxT, validDomain.
  cbn [map fold_left t xMin xMax].
  assert (Z0 : inject_Z 0 / Hook.hz hs == 0) by (unfold Qdiv; ring).
  assert (Zx : (if followTail vs
                then Qmax 0 (inject_Z 0 / Hook.hz hs - 30)
                else inject_Z 0 / Hook.hz hs) == 0).
  { destruct (followTail vs); [| exact Z0].
    apply Q.max_l. rewrite Z0. discriminate. }
  split; [exact Zx |]. split; [exact Z0 |].
  rewrite Zx, Z0. apply Qlt_irrefl.
Qed.

Lemma plain_restart_collapses_domain_witness :
  let hs := Hook.mkHook false (Series.mkFlags true true true)
                        [mkPoint 0 2 5 20] 4 None 1 in
  let vs := mkView (Some (mkDomain 0 0 0 100)) true false None in
  chartDomain (snd (togglePlaybackPlain hs vs)) = None.
Proof.
  cbv zeta.
  refine (proj1 (proj2 (@plain_restart_collapses_domain
                          (Hook.mkHook false (Series.mkFlags true true true)
                                       [mkPoint 0 2 5 20] 4 None 1)
                          (mkView (Some (mkDomain 0 0 0 100)) true false None)
                          (Synthetic.mkDraws 0 0 0) [] _ _ _)));
    reflexivity.
Defined.

End PlaybackFacts.

(** ** Aggregation *)

Module KPIFacts.
Import KPI.

(** The loop of [calculateMetrics] adds the values up and keeps the
    greatest value met so far. *)
Lemma scanValue_fold (l : list Q) : forall s m : Q,
  exists mx,
    fold_left scanValue l (s, m) = (fold_left Qplus l s, mx)
    /\ m <= mx
    /\ Forall (fun v => v <= mx) l
    /\ (mx = m \/ In mx l).
Proof.
  induction l as [| a l IH]; intros s m; cbn [fold_left].
  - exists m. repeat split; [apply Qle_refl | constructor | now left].
  - unfold scanValue at 2.
    destruct (Qltb m a) eqn:E.
    + apply ViewportFacts.Qltb_true in E.
      destruct (IH (s + a) a) as [mx [Ef [Hm [Hall Hin]]]].
      exists mx. repeat split.
      * exact Ef.
      * eapply Qle_trans; [apply Qlt_le_weak, E | exact Hm].
      * constructor; assumption.
      * right. destruct Hin as [-> | Hin]; [now left | now right].
    + apply ViewportFacts.Qltb_false in E.
      destruct (IH (s + a) m) as [mx [Ef [Hm [Hall Hin]]]].
      exists mx. repeat split.
      * exact Ef.
      * exact Hm.
      * constructor; [eapply Qle_trans; eassumption | exact Hall].
      * destruct Hin as [-> | Hin]; [now left | right; now right].
Qed.


Lemma get_last_element {A : Type} (l : list A) (d : A) :
  l <> [] -> JS.get l (JS.len l - 1) = Some (List.last l d).
Proof.
  intros Hne. destruct (exists_last Hne) as [l' [a ->]].
  rewrite JSFacts.get_last, last_last. reflexivity.
Qed.

Lemma metrics_of_values (v0 : Q) (rest : list Q) :
  exists mx,
    calculateMetrics (v0 :: rest)
    = mkMetrics (Qsum (v0 :: rest) / inject_Z (JS.len (v0 :: rest))) mx
                (List.last (v0 :: rest) v0)
    /\ In mx (v0 :: rest)
    /\ Forall (fun v => v <= mx) (v0 :: rest).
Proof.
  unfold calculateMetrics.
  destruct (scanValue_fold (v0 :: rest) 0 v0) as [mx [Ef [Hm [Hall Hin]]]].
  rewrite Ef.
  rewrite (@get_last_element _ (v0 :: rest) v0) by discriminate.
  exists mx. repeat split; [| exact Hall].
  destruct Hin as [-> | Hin]; [now left | exact Hin].
Qed.



(** Values below a positive level give a maximum below that level. *)
Lemma max_below (w : Q) (l : list Q) :
  0 < w -> Forall (fun v => v < w) l -> max (calculateMetrics l) < w.
Proof.
  intros Hw H. destruct l as [| v0 rest]; [exact Hw |].
  destruct (metrics_of_values v0 rest) as [mx [E [Hin _]]].
  rewrite E. cbn [max]. rewrite Forall_forall in H. now apply H.
Qed.

End KPIFacts.

(** ** The KPI card *)

Module KPICardFacts.
Import KPICard.

Lemma Qle_bool_false (a b : Q) : Qle_bool a b = false <-> b < a.
Proof.
  rewrite <- ViewportFacts.Qltb_true. unfold Qltb.
  destruct (Qle_bool a b); cbn [negb]; intuition congruence.
Qed.

(** For a threshold whose warning level is not above its critical level,
    the badge is Critical exactly when the card is enabled and the maximum
    reaches the critical level, Warning exactly when it is enabled and the
    maximum lies between the two levels, and absent otherwise; the three
    thresholds of the dashboard are of this kind. *)
Theorem badge_levels (metrics : KPI.KPIMetrics) (threshold : Threshold)
    (enabled : bool) (Hlevels : warning threshold <= max threshold) :
  (badge metrics threshold enabled = CriticalBadge
   <-> enabled = true /\ max threshold <= KPI.max metrics)
  /\ (badge metrics threshold enabled = WarningBadge
      <-> enabled = true /\ warning threshold <= KPI.max metrics
          /\ KPI.max metrics < max threshold)
  /\ (badge metrics threshold enabled = NoBadge
      <-> enabled = false \/ KPI.max metrics < warning threshold)
  /\ warning speedThreshold <= max speedThreshold
  /\ warning currentThreshold <= max currentThreshold
  /\ warning tempThreshold <= max tempThreshold.
Proof.
  unfold badge, isCritical, isWarning.
  destruct enabled; cbn [andb];
    destruct (Qle_bool (max threshold) (KPI.max metrics)) eqn:C;
    destruct (Qle_bool (warning threshold) (KPI.max metrics)) eqn:W;
    cbn [orb];
    try apply Qle_bool_iff in C; try apply Qle_bool_iff in W;
    try apply Qle_bool_false in C; try apply Qle_bool_false in W;
    (split; [| split; [| split; [| repeat split; discriminate]]]);
    split; try discriminate; try tauto; intros; try lra;
    try (repeat split; (reflexivity || assumption || lra));
    try (destruct H as [H | H]; (discriminate || lra)).
Qed.

Lemma badge_levels_witness :
  badge (KPI.mkMetrics 40 47 41) speedThreshold true = WarningBadge.
Proof.
  refine (proj2 (proj1 (proj2 (@badge_levels (KPI.mkMetrics 40 47 41)
                                 speedThreshold true _))) _).
  - vm_compute. discriminate.
  - split; [reflexivity |]. split; vm_compute; (discriminate || reflexivity).
Defined.

(** The mock samples the hook produces raise no badge: whatever part of
    them is charted and whichever series are shown, the three cards stay
    without a Warning or Critical badge. *)
Theorem hook_mock_data_raises_no_badge (st : Hook.HookState) (h : Q)
    (rs : list Synthetic.Draws) (dom : option Viewport.ChartDomain)
    (series : Series.Flags) (enabled : bool)
    (Htimer : Hook.timerRef st = Some h)
    (Hdraws : Forall (fun r => Synthetic.uSpeed r < 1
                               /\ Synthetic.uCurrent r < 1
                               /\ Synthetic.uTemp r < 1) rs) :
  let data := Hook.data (Hook.ticks rs (Hook.clear st)) in
  let k := KPI.memoizedKpiData (Controls.chartData data dom) series in
  badge (KPI.speed k) speedThreshold enabled = NoBadge
  /\ badge (KPI.current k) currentThreshold enabled = NoBadge
  /\ badge (KPI.temp k) tempThreshold enabled = NoBadge.
Proof.
  cbv zeta. rewrite (@HookFacts.ticks_after_clear rs st h Htimer).
  set (data := Buffer.lastn (Z.to_nat 14400) (Hook.mockPoints h 0 rs)).
  assert (Hdata : Forall (fun p => speed p < 3 /\ current p < 6
                                   /\ temp p < 21) data).
  { apply Forall_forall. intros p Hp. unfold data, Buffer.lastn in Hp.
    assert (Hin : In p (Hook.mockPoints h 0 rs)).
    { rewrite <- (firstn_skipn
                    (length (Hook.mockPoints h 0 rs) - Z.to_nat 14400)
                    (Hook.mockPoints h 0 rs)).
      apply in_or_app. now right. }
    apply In_nth_error in Hin as [k Ek].
    apply HookFacts.mockPoints_nth in Ek as [r [Er ->]].
    apply nth_error_In in Er. rewrite Forall_forall in Hdraws.
    destruct (Hdraws r Er) as [A [B C]]. cbn [speed current temp].
    repeat split; lra. }
  assert (Hchart : Forall (fun p => speed p < 3 /\ current p < 6
                                    /\ temp p < 21)
                          (Controls.chartData data dom)).
  { unfold Controls.chartData.
    destruct (JS.len data =? 0)%Z; [constructor |].
    destruct dom as [d |]; [| exact Hdata].
    destruct (Viewport.isNaN (Viewport.xMin d)
              || Viewport.isNaN (Viewport.xMax d)); [exact Hdata |].
    apply Forall_forall. intros p Hp. apply filter_In in Hp as [Hp _].
    rewrite Forall_forall in Hdata. now apply Hdata. }
  set (chart := Controls.chartData data dom) in *.
  assert (Ms : KPI.max (KPI.speed (KPI.memoizedKpiData chart series)) < 45
               /\ KPI.max (KPI.current (KPI.memoizedKpiData chart series)) < 85
               /\ KPI.max (KPI.temp (KPI.memoizedKpiData chart series)) < 70).
  { unfold KPI.memoizedKpiData.
    destruct (JS.len chart =? 0)%Z; [repeat split |].
    unfold KPI.perChannel. cbn [KPI.speed KPI.current KPI.temp].
    repeat split.
    - destruct (Series.speed series); [| reflexivity].
      apply Qlt_trans with (y := 3); [| reflexivity].
      apply KPIFacts.max_below; [reflexivity |].
      unfold KPI.speeds. apply Forall_map.
      eapply Forall_impl; [| exact Hchart]. cbn beta. tauto.
    - destruct (Series.current series); [| reflexivity].
      apply Qlt_trans with (y := 6); [| reflexivity].
      apply KPIFacts.max_below; [reflexivity |].
      unfold KPI.currents. apply Forall_map.
      eapply Forall_impl; [| exact Hchart]. cbn beta. tauto.
    - destruct (Series.temp series); [| reflexivity].
      apply Qlt_trans with (y := 21); [| reflexivity].
      apply KPIFacts.max_below; [reflexivity |].
      unfold KPI.temps. apply Forall_map.
      eapply Forall_impl; [| exact Hchart]. cbn beta. tauto. }
  destruct Ms as [M1 [M2 M3]].
  assert (N : forall m th, KPI.max m < warning th -> warning th <= max th ->
                badge m th enabled = NoBadge).
  { intros m th Hm Hth. unfold badge, isCritical, isWarning.
    assert (W : Qle_bool (warning th) (KPI.max m) = false)
      by (now apply Qle_bool_false).
    assert (C : Qle_bool (max th) (KPI.max m) = false)
      by (apply Qle_bool_false; lra).
    rewrite W, C. now destruct enabled. }
  repeat split; apply N; (assumption || (vm_compute; discriminate)).
Qed.

Lemma hook_mock_data_raises_no_badge_witness :
  let st := Hook.play (Hook.initialHook 4) in
  let rs := [Synthetic.mkDraws 0 0 0; Synthetic.mkDraws (1 # 2) 0 0] in
  let data := Hook.data (Hook.ticks rs (Hook.clear st)) in
  badge (KPI.speed (KPI.memoizedKpiData (Controls.chartData data None)
                      (Series.mkFlags true true true)))
        speedThreshold true = NoBadge.
Proof.
  cbv zeta.
  refine (proj1 (@hook_mock_data_raises_no_badge
                   (Hook.play (Hook.initialHook 4)) 4
                   [Synthetic.mkDraws 0 0 0; Synthetic.mkDraws (1 # 2) 0 0]
                   None (Series.mkFlags true true true) true _ _)).
  - reflexivity.
  - repeat constructor.
Defined.

End KPICardFacts.

(** ** Connection events and inbound messages *)

Module ConnectionMore.
Import Connection ConnectionRuns.

(** The retry counter never goes below zero and a pending reconnect was
    scheduled with 1000 or 2000 ms. *)
Lemma connStep_keeps (mock : bool) (st : ConnState) (e : ConnEvent) :
  (0 <= reconnectAttempts st)%Z ->
  (reconnectTimer st = None \/ reconnectTimer st = Some 1000%Z
   \/ reconnectTimer st = Some 2000%Z) ->
  (0 <= reconnectAttempts (connStep mock st e))%Z
  /\ (reconnectTimer (connStep mock st e) = None
      \/ reconnectTimer (connStep mock st e) = Some 1000%Z
      \/ reconnectTimer (connStep mock st e) = Some 2000%Z).
Proof.
  intros Ha Ht. destruct e; cbn [connStep].
  - unfold onopen. cbn [reconnectAttempts reconnectTimer]. split; [lia | exact Ht].
  - unfold onclose.
    cbn [isMockMode reconnectAttempts connected heartbeatRunning
         reconnectTimer].
    destruct (mock && negb (isMockMode st));
      cbn [reconnectAttempts reconnectTimer]; [split; [lia | exact Ht] |].
    destruct (Z.ltb_spec (reconnectAttempts st + 1) 3) as [H3 | H3].
    + cbn [reconnectAttempts reconnectTimer]. split; [lia |].
      assert (C : reconnectAttempts st = 0%Z \/ reconnectAttempts st = 1%Z)
        by lia.
      destruct C as [-> | ->]; [right; left | right; right]; reflexivity.
    + destruct mock; cbn [reconnectAttempts reconnectTimer];
        (split; [lia | exact Ht]).
  - unfold reconnectFires. cbn [reconnectAttempts reconnectTimer].
    split; [exact Ha | now left].
Qed.

(** Whatever the order of opens, closes and timer expiries, and whether
    the fallback is enabled or not, a reconnect is only ever scheduled
    after 1000 or 2000 ms, so the 30,000 ms cap of the backoff is never
    reached; and the first close after a successful open schedules 1000 ms
    again when the fallback is disabled. *)
Theorem reconnect_delay_is_1000_or_2000 (MOCK_DATA_ENABLED : bool)
    (evs : list ConnEvent) :
  let st := connRun MOCK_DATA_ENABLED evs initial in
  (0 <= reconnectAttempts st)%Z
  /\ (reconnectTimer st = None \/ reconnectTimer st = Some 1000%Z
      \/ reconnectTimer st = Some 2000%Z)
  /\ reconnectTimer (onclose false (onopen st)) = Some 1000%Z
  /\ reconnectAttempts (onclose false (onopen st)) = 1%Z.
Proof.
  cbv zeta.
  assert (G : forall st,
             (0 <= reconnectAttempts st)%Z ->
             (reconnectTimer st = None \/ reconnectTimer st = Some 1000%Z
              \/ reconnectTimer st = Some 2000%Z) ->
             (0 <= reconnectAttempts (connRun MOCK_DATA_ENABLED evs st))%Z
             /\ (reconnectTimer (connRun MOCK_DATA_ENABLED evs st) = None
                 \/ reconnectTimer (connRun MOCK_DATA_ENABLED evs st)
                    = Some 1000%Z
                 \/ reconnectTimer (connRun MOCK_DATA_ENABLED evs st)
                    = Some 2000%Z)).
  { unfold connRun. induction evs as [| e evs IH]; intros st Ha Ht;
      cbn [fold_left]; [now split |].
    destruct (@connStep_keeps MOCK_DATA_ENABLED st e Ha Ht) as [Ha' Ht'].
    now apply IH. }
  destruct (G initial) as [Ha Ht]; [cbn; lia | now left |].
  split; [exact Ha |]. split; [exact Ht |]. split; reflexivity.
Qed.

End ConnectionMore.

Module WireFacts.
Import Strings.String Wire.
Local Open Scope string_scope.

Lemma receive_pending (isPlaying : bool) (frames : list (Z * Frame)) :
  forall s : Session,
  pendingData (receive isPlaying frames s)
  = (pendingData s
     ++ (if isPlaying then telemetryPoints frames else []))%list.
Proof.
  unfold receive.
  induction frames as [| [now f] frames IH]; intros s;
    cbn [fold_left telemetryPoints fst snd].
  - destruct isPlaying; now rewrite app_nil_r.
  - rewrite IH. destruct f as [| m]; cbn [onmessage]; [reflexivity |].
    destruct (String.eqb (type m) "pong") eqn:P.
    + apply String.eqb_eq in P.
      assert (T : String.eqb (type m) "telemetry" = false)
        by (rewrite P; reflexivity).
      rewrite T. reflexivity.
    + destruct (String.eqb (type m) "telemetry"); destruct isPlaying;
        cbn [andb pendingData]; try reflexivity.
      now rewrite <- app_assoc.
Qed.

(** The pending batch receives exactly the payloads of the frames typed
    ["telemetry"], in arrival order, and only while playback is on: frames
    that do not parse, pongs and frames of any other type add nothing, and
    while paused nothing is queued at all. *)
Theorem only_telemetry_frames_are_queued (frames : list (Z * Frame))
    (s : Session) :
  pendingData (receive true frames s)
  = (pendingData s ++ telemetryPoints frames)%list
  /\ pendingData (receive false frames s) = pendingData s
  /\ (forall isPlaying now, onmessage isPlaying now Unparseable s = s)
  /\ (forall isPlaying now m,
        type m <> "pong" -> type m <> "telemetry" ->
        onmessage isPlaying now (Parsed m) s = s).
Proof.
  rewrite !receive_pending. rewrite app_nil_r.
  repeat split.
  intros isPlaying now m Hp Ht. cbn [onmessage].
  apply String.eqb_neq in Hp, Ht. rewrite Hp, Ht. reflexivity.
Qed.

(** The three message types declared in [telemtery.ts], ["meta"],
    ["point"] and ["end"], are all ignored by [onmessage]: a sample sent
    with the declared tag ["point"] never reaches the buffer. *)
Theorem declared_wire_types_are_ignored (isPlaying : bool) (now : Z)
    (m : Message) (s : Session)
    (Hdeclared : type m = "meta" \/ type m = "point" \/ type m = "end") :
  onmessage isPlaying now (Parsed m) s = s
  /\ forall frames,
       Forall (fun nf => exists m', snd nf = Parsed m'
                                    /\ (type m' = "meta" \/ type m' = "point"
                                        \/ type m' = "end")) frames ->
       receive isPlaying frames s = s.
Proof.
  assert (G : forall m' s', (type m' = "meta" \/ type m' = "point"
                             \/ type m' = "end") ->
                onmessage isPlaying now (Parsed m') s' = s').
  { intros m' s' [E | [E | E]]; cbn [onmessage]; rewrite E; reflexivity. }
  split; [now apply G |].
  intros frames. revert s. unfold receive.
  induction frames as [| [n f] frames IH]; intros s H; cbn [fold_left];
    [reflexivity |].
  inversion H as [| ? ? [m' [Ef Ht]] Hrest]; subst. cbn [fst snd] in *.
  subst f.
  assert (E : onmessage isPlaying n (Parsed m') s = s).
  { destruct Ht as [E | [E | E]]; cbn [onmessage]; rewrite E; reflexivity. }
  rewrite E. now apply IH.
Qed.

Lemma declared_wire_types_are_ignored_witness :
  onmessage true 1000 (Parsed (mkMessage "point" 0 (mkPoint 1 2 3 4)))
            (mkSession 0 [])
  = mkSession 0 [].
Proof.
  refine (proj1 (@declared_wire_types_are_ignored true 1000
                   (mkMessage "point" 0 (mkPoint 1 2 3 4)) (mkSession 0 [])
                   _)).
  right. left. reflexivity.
Defined.

End WireFacts.

(** ** More on the synthetic generator *)

Module SyntheticMore.
Import Synthetic SyntheticRuns.







End SyntheticMore.

(** ** More on the downsampling engine *)

Module DownsampleMore.
Import Downsample JSFacts LTTBFacts MinMaxFacts.

(** The scan leaves a point of least sum and a point of greatest sum. *)
Lemma scanMinMax_extremes (l : list TelemetryPoint) :
  forall mn mx : TelemetryPoint,
  exists mn' mx',
    fold_left scanMinMax l (mn, mx, channelSum mn, channelSum mx)
    = (mn', mx', channelSum mn', channelSum mx')
    /\ channelSum mn' <= channelSum mn
    /\ channelSum mx <= channelSum mx'
    /\ Forall (fun q => channelSum mn' <= channelSum q
                        /\ channelSum q <= channelSum mx') l.
Proof.
  induction l as [| p l IH]; intros mn mx; cbn [fold_left].
  - exists mn, mx. repeat split; (apply Qle_refl || constructor).
  - unfold scanMinMax at 2.
    destruct (Qltb (channelSum p) (channelSum mn)) eqn:E1;
      [apply ViewportFacts.Qltb_true in E1
      | apply ViewportFacts.Qltb_false in E1];
      (destruct (Qltb (channelSum mx) (channelSum p)) eqn:E2;
       [apply ViewportFacts.Qltb_true in E2
       | apply ViewportFacts.Qltb_false in E2]);
      match goal with
      | |- context [fold_left scanMinMax l (?m1, ?m2, _, _)] =>
          destruct (IH m1 m2) as [mn' [mx' [E [H1 [H2 H3]]]]]
      end;
      exists mn', mx'; (split; [exact E |]);
      (split; [lra |]); (split; [lra |]);
      (constructor; [split; lra | exact H3]).
Qed.

Lemma emitBucket_extremes (bucket : list TelemetryPoint) :
  bucket <> [] ->
  exists out lo hi,
    emitBucket bucket = Some out
    /\ In lo out /\ In hi out /\ incl out bucket
    /\ Forall (fun q => channelSum lo <= channelSum q
                        /\ channelSum q <= channelSum hi) bucket.
Proof.
  destruct bucket as [| b0 [| b1 rest]]; [congruence | |]; intros _.
  - exists [b0], b0, b0. repeat split; try (now left); try apply incl_refl.
    repeat constructor; apply Qle_refl.
  - destruct (emitBucket_nonempty (bucket := b0 :: b1 :: rest))
      as [out' [Eo' [_ [Hincl _]]]]; [discriminate |].
    revert Eo'. unfold emitBucket.
    destruct (scanMinMax_extremes (b0 :: b1 :: rest) b0 b0)
      as [mn [mx [E [_ [_ Hall]]]]].
    rewrite E. intros Eo'.
    destruct (Qltb (t mn) (t mx)).
    + exists [mn; mx], mn, mx. injection Eo' as <-.
      repeat split; [now left | right; now left | exact Hincl | exact Hall].
    + exists [mx; mn], mn, mx. injection Eo' as <-.
      repeat split; [right; now left | now left | exact Hincl | exact Hall].
Qed.

(** Min-max bucketing keeps the extremes: for every input point the output
    holds an input point whose channel sum is not greater and one whose
    channel sum is not smaller, so the least and the greatest channel sum
    of the input are both present in the output. *)
Theorem minmax_keeps_extremes (data : list TelemetryPoint) (targetPoints : Z)
    (Hlong : (JS.len data > targetPoints)%Z)
    (Hbudget : (targetPoints > 0)%Z) :
  exists out,
    downsampleMinMax data targetPoints = Some out
    /\ forall q, In q data ->
         exists lo hi,
           In lo out /\ In hi out /\ In lo data /\ In hi data
           /\ channelSum lo <= channelSum q
           /\ channelSum q <= channelSum hi.
Proof.
  destruct (@minmax_structure data targetPoints Hlong Hbudget)
    as [outs [out [E [-> [F [P _]]]]]].
  exists (concat outs). split; [exact E |].
  intros q Hq. rewrite <- P in Hq.
  apply in_concat in Hq as [b [Hb Hqb]].
  apply in_split in Hb as [B1 [B2 EB]].
  pose proof F as F'. rewrite EB in F'.
  apply Forall2_app_inv_l in F' as [O1 [O2 [_ [F2 EO]]]].
  inversion F2 as [| ? o ? O3 Eo _]; subst O2.
  assert (Hne : b <> []) by (intros ->; contradiction).
  destruct (emitBucket_extremes Hne) as [o' [lo [hi [Eo' [Hlo [Hhi [Hi Hall]]]]]]].
  assert (o' = o) by congruence. subst o'.
  rewrite Forall_forall in Hall. destruct (Hall q Hqb) as [L U].
  assert (Hob : forall z, In z o -> In z (concat outs)).
  { intros z Hz. rewrite EO. apply in_concat. exists o.
    split; [apply in_or_app; right; now left | exact Hz]. }
  assert (Hbd : forall z, In z b -> In z data).
  { intros z Hz. rewrite <- P, EB. apply in_concat. exists b.
    split; [apply in_or_app; right; now left | exact Hz]. }
  exists lo, hi. repeat split; auto.
Qed.

Lemma minmax_keeps_extremes_witness :
  exists out,
    downsampleMinMax sixPoints 3 = Some out
    /\ forall q, In q sixPoints ->
         exists lo hi,
           In lo out /\ In hi out /\ In lo sixPoints /\ In hi sixPoints
           /\ channelSum lo <= channelSum q
           /\ channelSum q <= channelSum hi.
Proof.
  refine (@minmax_keeps_extremes sixPoints 3 _ _).
  - vm_compute. reflexivity.
  - lia.
Defined.

Lemma selects_In (data : list TelemetryPoint) (idxs : list Z)
    (out : list TelemetryPoint) (p : TelemetryPoint) :
  selects data idxs out -> In p out ->
  exists j, In j idxs /\ JS.get data j = Some p.
Proof.
  induction 1 as [| i q idxs out E _ IH]; cbn [In]; [tauto |].
  intros [<- | Hp]; [exists i; auto |].
  destruct (IH Hp) as [j [Hj Ej]]. exists j. auto.
Qed.

(** Elements taken at strictly increasing positions of a duplicate-free
    input are pairwise distinct. *)
Lemma selects_NoDup (data : list TelemetryPoint) (idxs : list Z)
    (out : list TelemetryPoint) :
  NoDup data -> increasing idxs -> selects data idxs out -> NoDup out.
Proof.
  intros Hd Hi Hs. unfold increasing in Hi.
  induction Hs as [| i p idxs out E Hs IH]; [constructor |].
  inversion Hi as [| ? ? Hi' Hlt]; subst.
  constructor; [| now apply IH].
  intros Hp. destruct (@selects_In data idxs out p Hs Hp) as [j [Hj Ej]].
  rewrite Forall_forall in Hlt. specialize (Hlt j Hj).
  apply get_Some in E as [Ri E], Ej as [Rj Ej].
  assert (Z.to_nat i = Z.to_nat j).
  { eapply (proj1 (NoDup_nth_error data) Hd);
      [unfold JS.len in Ri; lia | congruence]. }
  lia.
Qed.

(** LTTB is idempotent and adds no duplicates: decimating its output
    again with the same budget returns that output unchanged, every output
    point is an input point, and an input without repeated points gives an
    output without repeated points. *)
Theorem lttb_idempotent_and_duplicate_free (data out : list TelemetryPoint)
    (threshold : Z) (Hout : downsampleLTTB data threshold = Some out) :
  downsampleLTTB out threshold = Some out
  /\ incl out data
  /\ (NoDup data -> NoDup out).
Proof.
  destruct (Z.le_gt_cases (JS.len data) threshold) as [Hshort | Hlong];
    [| destruct (Z.le_gt_cases threshold 2) as [Hsmall | Hbig]].
  - assert (E : downsampleLTTB data threshold = Some data).
    { unfold downsampleLTTB.
      destruct (Z.leb_spec (JS.len data) threshold); [reflexivity | lia]. }
    assert (out = data) by congruence. subst out.
    repeat split; [exact E | apply incl_refl | auto].
  - assert (E : downsampleLTTB data threshold = Some data).
    { unfold downsampleLTTB.
      destruct (Z.leb_spec threshold 2); [| lia].
      now rewrite orb_true_r. }
    assert (out = data) by congruence. subst out.
    repeat split; [exact E | apply incl_refl | auto].
  - destruct (@lttb_structure data threshold ltac:(lia) ltac:(lia))
      as [mid [out' [E [L [I S]]]]].
    assert (out' = out) by congruence. subst out'.
    repeat split.
    + unfold downsampleLTTB.
      assert (Lo : JS.len out = threshold).
      { unfold JS.len in *. rewrite <- (Forall2_length S).
        cbn [length]. rewrite length_app. cbn [length]. lia. }
      destruct (Z.leb_spec (JS.len out) threshold); [reflexivity | lia].
    + clear - S. induction S as [| i p idxs out E _ IH]; intros x;
        cbn [In]; [tauto |].
      intros [<- | Hx]; [eapply get_In, E | now apply IH].
    + intros Hd. eapply selects_NoDup; eassumption.
Qed.

Lemma lttb_idempotent_and_duplicate_free_witness :
  exists out,
    downsampleLTTB tenPoints 5 = Some out
    /\ downsampleLTTB out 5 = Some out.
Proof.
  destruct (downsampleLTTB tenPoints 5) as [out |] eqn:E;
    [| vm_compute in E; discriminate E].
  exists out. split; [reflexivity |].
  exact (proj1 (@lttb_idempotent_and_duplicate_free tenPoints out 5 E)).
Defined.

End DownsampleMore.

(** ** What LTTB selects *)

Module LTTBMore.
Import Downsample JSFacts LTTBFacts LTTBModel.




Section Fixed.
Variable data : list TelemetryPoint.
Variable threshold : Z.
Hypothesis Hlong : (JS.len data > threshold)%Z.
Hypothesis Hbudget : (threshold > 2)%Z.

Abbreviation n := (JS.len data).
Abbreviation bound := (bucketBound data threshold).






End Fixed.


End LTTBMore.
